(** * status-agent: the node agent's reporting lifecycle

  A shallow embedding of [agent.js]: the start-up validation of the
  environment, the construction of [CONFIG], and the report cycle
  ([sendReport], [registerNode], [measureLatency], [scheduleReconnect])
  run by Node's event loop.

  - JavaScript strings are sequences of UTF-16 code units ([list N]).
  - [process.env] is a finite map from variable names to strings.
  - The numbers the agent computes with are integers, or [NaN] where
    [parseInt] finds no digits; the reconnect delay is a dyadic rational,
    kept exact in [Q].
  - An [async] function is cut at its [await]s on I/O: an invocation is
    either running one synchronous segment, or parked in the pool of
    in-flight invocations until the awaited operation settles.  Node runs
    one segment at a time; timers and I/O completions arrive as events in
    any order.  Console output and the lock file are not modelled. *)

From Stdlib Require Import ZArith QArith Lia.
From stdpp Require Import base option list strings gmap.

Local Open Scope Z_scope.

(** ** JavaScript strings *)

Module Js.

(** A string value: its UTF-16 code units. *)
Abbreviation str := (list N) (only parsing).

(** An ASCII literal of the source. *)
Definition lit (s : string) : str :=
  List.map Ascii.N_of_ascii (String.list_ascii_of_string s).

Definition str_eqb (a b : str) : bool := bool_decide (a = b).

(** WhiteSpace and LineTerminator code points of ECMAScript, the ones
    [String.prototype.trim] and [parseInt] strip. *)
Definition isWhiteSpace (c : N) : bool :=
  ((c =? 9) || (c =? 10) || (c =? 11) || (c =? 12) || (c =? 13) || (c =? 32)
   || (c =? 160) || (c =? 5760) || ((8192 <=? c) && (c <=? 8202))
   || (c =? 8232) || (c =? 8233) || (c =? 8239) || (c =? 8287)
   || (c =? 12288) || (c =? 65279))%N.

Fixpoint trimStart (s : str) : str :=
  match s with
  | c :: r => if isWhiteSpace c then trimStart r else s
  | [] => []
  end.

Definition trimEnd (s : str) : str := rev (trimStart (rev s)).

(** [s.trim()] *)
Definition trim (s : str) : str := trimEnd (trimStart s).

(** [s.startsWith(p)] *)
Fixpoint startsWith (p s : str) : bool :=
  match p, s with
  | [], _ => true
  | a :: p', b :: s' => (a =? b)%N && startsWith p' s'
  | _ :: _, [] => false
  end.

Fixpoint dropSlashes (s : str) : str :=
  match s with
  | c :: r => if (c =? 47)%N then dropSlashes r else s
  | [] => []
  end.

(** [s.replace(/\/+$/, '')]: the trailing run of slashes is removed. *)
Definition stripTrailingSlashes (s : str) : str := rev (dropSlashes (rev s)).

(** The value of a code unit as a digit: [0-9], then [a-z] or [A-Z] for
    ten and up. *)
Definition digitValue (c : N) : option Z :=
  if ((48 <=? c) && (c <=? 57))%N then Some (Z.of_N c - 48)
  else if ((97 <=? c) && (c <=? 122))%N then Some (Z.of_N c - 87)
  else if ((65 <=? c) && (c <=? 90))%N then Some (Z.of_N c - 55)
  else None.

Definition isDigit (radix : Z) (c : N) : bool :=
  match digitValue c with
  | Some d => d <? radix
  | None => false
  end.

(** [/^[a-f0-9]{64}$/i.test(s)] on a string of any length. *)
Definition isHex64 (s : str) : bool :=
  (length s =? 64)%nat && forallb (isDigit 16) s.

(** The leading run of radix-[radix] digits of [s]. *)
Fixpoint digitsPrefix (radix : Z) (s : str) : list Z :=
  match s with
  | c :: r =>
      match digitValue c with
      | Some d => if d <? radix then d :: digitsPrefix radix r else []
      | None => []
      end
  | [] => []
  end.

(** The integer a digit sequence denotes, most significant digit first. *)
Definition digitsValue (radix : Z) (ds : list Z) : Z :=
  fold_left (fun acc d => acc * radix + d) ds 0.

(** A Number as far as the configuration needs it: [NaN], or the number
    nearest to an integer.  [Num z] stands for the double nearest to [z];
    rounding is monotone and fixes every integer below 2^53, so ordering
    against such an integer is the ordering of the integers. *)
Inductive number : Type :=
| NaN
| Num (z : Z).

(** [parseInt(s)] with no radix argument: leading white space is skipped,
    one sign is read, a [0x] or [0X] prefix selects radix 16, and the
    longest run of digits is converted; no digit at all gives [NaN]. *)
Definition parseInt (s : str) : number :=
  let s1 := trimStart s in
  let '(sign, s2) :=
    match s1 with
    | 45%N :: r => (-1, r)
    | 43%N :: r => (1, r)
    | _ => (1, s1)
    end in
  let '(radix, s3) :=
    match s2 with
    | 48%N :: x :: r => if ((x =? 120) || (x =? 88))%N then (16, r) else (10, s2)
    | _ => (10, s2)
    end in
  match digitsPrefix radix s3 with
  | [] => NaN
  | ds => Num (sign * digitsValue radix ds)
  end.

(** [Math.max(a, b)]: [NaN] as soon as one argument is. *)
Definition Math_max (a b : number) : number :=
  match a, b with
  | Num x, Num y => Num (Z.max x y)
  | _, _ => NaN
  end.

(** [a >= b] on Numbers: every comparison with [NaN] is false. *)
Definition geb (a b : number) : bool :=
  match a, b with
  | Num x, Num y => y <=? x
  | _, _ => false
  end.

(** [v || d] for a possibly undefined string [v]: the empty string is
    falsy. *)
Definition orElse (v : option str) (d : str) : str :=
  match v with
  | Some ((_ :: _) as s) => s
  | _ => d
  end.

End Js.

(** ** Start-up: validation of the environment and [CONFIG] *)

Record Config : Type := mkConfig {
SERVER_URL : Js.str;
API_KEY : Js.str;
NODE_NAME : Js.str;
REPORT_INTERVAL : Js.number;
LATENCY_TEST : bool;
DEBUG : bool;
MAX_RECONNECT_ATTEMPTS : Z;
RECONNECT_BASE_DELAY : Z
}.

Inductive ConfigError : Type :=
| MissingVariable (key : string)
| InvalidApiKey
| InvalidServerUrl.

(** How start-up ends: [process.exit(code)] after an error message, or the
  configuration the agent runs with. *)
Inductive Startup : Type :=
| Fatal (e : ConfigError) (code : Z)
| Ready (c : Config).

Definition requiredEnv : list string := ["SERVER_URL"; "API_KEY"; "NODE_NAME"]%string.

(** [!process.env[key] || process.env[key].trim() === ''] *)
Definition missing (env : gmap string Js.str) (key : string) : bool :=
match env !! key with
| None => true
| Some [] => true
| Some v => Js.str_eqb (Js.trim v) []
end.

(** Lines 19-51 of [agent.js].  [hostname] is [os.hostname()].  A variable
  read after the [requiredEnv] loop is present; the empty default of those
  reads is never taken. *)
Definition loadConfig (env : gmap string Js.str) (hostname : Js.str) : Startup :=
match List.find (missing env) requiredEnv with
| Some key => Fatal (MissingVariable key) 1
| None =>
    let api_key := default [] (env !! "API_KEY"%string) in
    let server_url := default [] (env !! "SERVER_URL"%string) in
    if negb (Js.isHex64 api_key) then Fatal InvalidApiKey 1
    else if negb (Js.startsWith (Js.lit "http://") server_url)
            && negb (Js.startsWith (Js.lit "https://") server_url)
    then Fatal InvalidServerUrl 1
    else Ready {|
      SERVER_URL := Js.stripTrailingSlashes server_url;
      API_KEY := Js.trim api_key;
      NODE_NAME := Js.trim (Js.orElse (env !! "NODE_NAME"%string) hostname);
      REPORT_INTERVAL :=
        Js.Math_max (Js.Num 500)
          (Js.parseInt (Js.orElse (env !! "REPORT_INTERVAL"%string) (Js.lit "1000")));
      LATENCY_TEST :=
        negb (bool_decide (env !! "LATENCY_TEST"%string = Some (Js.lit "false")));
      DEBUG := bool_decide (env !! "DEBUG"%string = Some (Js.lit "true"));
      MAX_RECONNECT_ATTEMPTS := 20;
      RECONNECT_BASE_DELAY := 3000
    |}
end.


(** ** The agent process *)

(** An [async] function up to its first [await] on I/O: it has returned, or
    it waits. *)
Inductive Started (A : Type) : Type :=
| Returned (a : A)
| Pending.
Arguments Returned {A} a.
Arguments Pending {A}.

Section Agent.

(** What [getSystemStats] resolves to when collection works; the metrics
    are gathered outside the reporting lifecycle. *)
Context {Snapshot : Type}.

Variable cfg : Config.

(** The [await] an invocation of [sendReport] is parked on:
    - [AwaitRegister]: in [registerNode], the POST to /api/node/register;
    - [AwaitStats]: [getSystemStats()];
    - [AwaitLatency stats start]: in [measureLatency], the GET of SERVER_URL
      issued at time [start], with the snapshot already collected;
    - [AwaitReport stats latency]: the POST to /api/node/report. *)
Inductive Await : Type :=
| AwaitRegister
| AwaitStats
| AwaitLatency (stats : Snapshot) (start : Z)
| AwaitReport (stats : Snapshot) (latency : Z).

(** An in-flight invocation.  [first] marks the call awaited by the
    start-up block, which installs the interval timer once it returns. *)
Record Task : Type := mkTask { point : Await; first : bool }.

(** What the process has done to the outside, oldest first. *)
Inductive Effect : Type :=
| PostRegister
| GetBase
| PostReport (latency : Z) (stats : Snapshot)
| SetTimeout (delay : Q)
| SetInterval (ms : Js.number).

Definition isNetwork (e : Effect) : bool :=
  match e with
  | PostRegister | GetBase | PostReport _ _ => true
  | SetTimeout _ | SetInterval _ => false
  end.

(** The two variables of lines 74-75, and what Node holds for the process:
    the invocations in flight, the pending [setTimeout(sendReport, delay)]
    timers, whether [setInterval(sendReport, ...)] is installed, the effects
    so far, and the status [process.exit] was called with, if it was. *)
Record Process : Type := mkProcess {
  isRegistered : bool;
  reconnectAttempts : Z;
  inflight : list Task;
  timers : list Q;
  intervalOn : bool;
  effects : list Effect;
  exited : option Z
}.

Definition networkCalls (p : Process) : list Effect :=
  List.filter isNetwork (effects p).

(** *** Synchronous code: a state monad that stops at [process.exit] *)

Definition M (A : Type) : Type := Process -> Process * option A.

Definition ret {A} (a : A) : M A := fun p => (p, Some a).

Definition bind {A B} (m : M A) (k : A -> M B) : M B :=
  fun p =>
    match m p with
    | (p', Some a) => k a p'
    | (p', None) => (p', None)
    end.

Notation "x <- m ;; k" := (bind m (fun x => k))
  (at level 100, m at next level, right associativity).
Notation "m ;; k" := (bind m (fun _ => k))
  (at level 100, right associativity).

Definition exec {A} (m : M A) (p : Process) : Process := fst (m p).

Definition get {A} (f : Process -> A) : M A := fun p => (p, Some (f p)).

Definition modify (f : Process -> Process) : M unit := fun p => (f p, Some tt).

Definition set_isRegistered (b : bool) : M unit :=
  modify (fun p => mkProcess b (reconnectAttempts p) (inflight p) (timers p)
                     (intervalOn p) (effects p) (exited p)).

Definition set_reconnectAttempts (n : Z) : M unit :=
  modify (fun p => mkProcess (isRegistered p) n (inflight p) (timers p)
                     (intervalOn p) (effects p) (exited p)).

Definition emit (e : Effect) : M unit :=
  modify (fun p => mkProcess (isRegistered p) (reconnectAttempts p) (inflight p)
                     (timers p) (intervalOn p) (effects p ++ [e]) (exited p)).

(** [process.exit(code)]: nothing after it runs. *)
Definition process_exit {A} (code : Z) : M A :=
  fun p => (mkProcess (isRegistered p) (reconnectAttempts p) (inflight p)
              (timers p) (intervalOn p) (effects p) (Some code), None).

(** [setTimeout(sendReport, delay)] *)
Definition setTimeout (delay : Q) : M unit :=
  emit (SetTimeout delay) ;;
  modify (fun p => mkProcess (isRegistered p) (reconnectAttempts p) (inflight p)
                     (timers p ++ [delay]) (intervalOn p) (effects p) (exited p)).

(** [setInterval(sendReport, CONFIG.REPORT_INTERVAL)] *)
Definition setInterval : M unit :=
  emit (SetInterval (REPORT_INTERVAL cfg)) ;;
  modify (fun p => mkProcess (isRegistered p) (reconnectAttempts p) (inflight p)
                     (timers p) true (effects p) (exited p)).

(** The invocation reaches an [await] on I/O and is parked. *)
Definition park (fst_call : bool) (a : Await) : M unit :=
  modify (fun p => mkProcess (isRegistered p) (reconnectAttempts p)
                     (inflight p ++ [mkTask a fst_call]) (timers p)
                     (intervalOn p) (effects p) (exited p)).

(** *** HTTP as axios presents it *)

(** How a request ends: with a response, or with none (timeout, refused
    connection, DNS failure).  [success] is the truthiness of
    [response.data.success]; it is false as well when the body has no such
    field. *)
Inductive Http : Type :=
| Response (status : Z) (success : bool)
| NoResponse.

(** axios' default [validateStatus]: the promise resolves on a 2xx status
    and rejects on any other. *)
Definition validateStatus (status : Z) : bool :=
  (200 <=? status) && (status <? 300).

(** The [await axios...] returns; otherwise it throws. *)
Definition resolves (h : Http) : bool :=
  match h with
  | Response status _ => validateStatus status
  | NoResponse => false
  end.

(** *** The functions of the agent *)

(** [RECONNECT_BASE_DELAY * Math.pow(1.5, n)] *)
Definition reconnectDelay (n : Z) : Q :=
  (inject_Z (RECONNECT_BASE_DELAY cfg) * (3 # 2) ^ n)%Q.

(** [scheduleReconnect()]; the timer it sets calls [sendReport] later. *)
Definition scheduleReconnect : M unit :=
  n <- get reconnectAttempts ;;
  (if MAX_RECONNECT_ATTEMPTS cfg <=? n then process_exit 1 else ret tt) ;;
  let delay := reconnectDelay n in
  set_reconnectAttempts (n + 1) ;;
  setTimeout delay.

(** [registerNode()] from the moment its POST settles. *)
Definition registerNode_settled (h : Http) : M bool :=
  match h with
  | Response status success =>
      if validateStatus status then
        if success then
          set_isRegistered true ;;
          set_reconnectAttempts 0 ;;
          ret true
        else ret false
      else ret false
  | NoResponse => ret false
  end.

(** [measureLatency()] up to its [await], called at time [now]: it returns
    0 at once when the latency test is off; otherwise it reads the clock,
    issues the GET and waits. *)
Definition measureLatency_called (now : Z) : M (Started Z) :=
  if negb (LATENCY_TEST cfg) then ret (Returned 0)
  else
    emit GetBase ;;
    ret Pending.

(** [measureLatency()] from the moment its GET settles at time [now]:
    [Date.now() - start] when axios resolves, 9999 in the [catch]. *)
Definition measureLatency_settled (start now : Z) (h : Http) : Z :=
  if resolves h then now - start else 9999.

(** [sendReport] returns.  The start-up block awaits the first call and then
    installs the interval timer. *)
Definition finish (fst_call : bool) : M unit :=
  if fst_call then setInterval else ret tt.

(** [await getSystemStats()] *)
Definition collect (fst_call : bool) : M unit := park fst_call AwaitStats.

(** [await axios.post(.../api/node/report, {api_key, latency, stats})] *)
Definition transmit (fst_call : bool) (stats : Snapshot) (latency : Z) : M unit :=
  emit (PostReport latency stats) ;;
  park fst_call (AwaitReport stats latency).

(** [sendReport()] from its entry to its first [await]. *)
Definition sendReport (fst_call : bool) : M unit :=
  registered <- get isRegistered ;;
  if negb registered then
    emit PostRegister ;;
    park fst_call AwaitRegister
  else collect fst_call.

(** [sendReport] after [await registerNode()]. *)
Definition sendReport_registered (fst_call : bool) (h : Http) : M unit :=
  success <- registerNode_settled h ;;
  if negb success then
    scheduleReconnect ;;
    finish fst_call
  else collect fst_call.

(** [sendReport] after [await getSystemStats()], at time [now]:
    a null snapshot returns; otherwise [measureLatency] is called. *)
Definition sendReport_collected (fst_call : bool) (now : Z)
    (stats : option Snapshot) : M unit :=
  match stats with
  | None => finish fst_call
  | Some s =>
      latency <- measureLatency_called now ;;
      match latency with
      | Returned l => transmit fst_call s l
      | Pending => park fst_call (AwaitLatency s now)
      end
  end.

(** [sendReport] after [await measureLatency()]. *)
Definition sendReport_measured (fst_call : bool) (stats : Snapshot)
    (start now : Z) (h : Http) : M unit :=
  transmit fst_call stats (measureLatency_settled start now h).

(** [sendReport] after the report POST settles: the [try] body continues
    when axios resolves, the [catch] runs when it rejects. *)
Definition sendReport_posted (fst_call : bool) (h : Http) : M unit :=
  if resolves h then
    set_reconnectAttempts 0 ;;
    finish fst_call
  else
    set_isRegistered false ;;
    scheduleReconnect ;;
    finish fst_call.

(** [shutdown()], the SIGINT and SIGTERM handler. *)
Definition shutdown : M unit := process_exit 0.

(** *** The event loop *)

(** What an awaited operation settles with. *)
Inductive Settled : Type :=
| HttpSettled (h : Http)
| StatsSettled (stats : option Snapshot).

(** What the event loop delivers: the interval timer fires; the pending
    reconnect timer [j] fires; the operation awaited by invocation [i]
    settles with [r] while the clock reads [now]; SIGINT or SIGTERM
    arrives.  Continuations of settled promises run before the next event,
    so a turn runs the resumed invocation up to its next await on I/O. *)
Inductive Event : Type :=
| Interval
| Timeout (j : nat)
| Settle (i : nat) (now : Z) (r : Settled)
| Signal.

(** The rest of [sendReport] for an invocation parked at [t]. *)
Definition resume (t : Task) (now : Z) (r : Settled) : option (M unit) :=
  match point t, r with
  | AwaitRegister, HttpSettled h => Some (sendReport_registered (first t) h)
  | AwaitStats, StatsSettled s => Some (sendReport_collected (first t) now s)
  | AwaitLatency stats start, HttpSettled h =>
      Some (sendReport_measured (first t) stats start now h)
  | AwaitReport _ _, HttpSettled h => Some (sendReport_posted (first t) h)
  | _, _ => None
  end.

Definition unpark (i : nat) (p : Process) : Process :=
  mkProcess (isRegistered p) (reconnectAttempts p) (delete i (inflight p))
    (timers p) (intervalOn p) (effects p) (exited p).

Definition clearTimer (j : nat) (p : Process) : Process :=
  mkProcess (isRegistered p) (reconnectAttempts p) (inflight p)
    (delete j (timers p)) (intervalOn p) (effects p) (exited p).

(** One turn of the event loop; [None] when the event cannot happen in
    [p].  An exited process takes no turn. *)
Definition step (p : Process) (e : Event) : option Process :=
  match exited p with
  | Some _ => None
  | None =>
      match e with
      | Interval =>
          if intervalOn p then Some (exec (sendReport false) p) else None
      | Timeout j =>
          match timers p !! j with
          | Some _ => Some (exec (sendReport false) (clearTimer j p))
          | None => None
          end
      | Settle i now r =>
          match inflight p !! i with
          | Some t =>
              match resume t now r with
              | Some m => Some (exec m (unpark i p))
              | None => None
              end
          | None => None
          end
      | Signal => Some (exec shutdown p)
      end
  end.

Fixpoint run (p : Process) (es : list Event) : option Process :=
  match es with
  | [] => Some p
  | e :: es' =>
      match step p e with
      | Some p' => run p' es'
      | None => None
      end
  end.

(** The state at lines 74-75, before the first call. *)
Definition initial : Process :=
  mkProcess false 0 [] [] false [] None.

(** The start-up block has called [sendReport()] and awaits it. *)
Definition boot : Process := exec (sendReport true) initial.

Definition reachable (p : Process) : Prop :=
  exists es, run boot es = Some p.

(** *** Recoverable failures and successes *)

(** Registration succeeds when the POST resolves and the body says so. *)
Definition accepted (h : Http) : bool :=
  match h with
  | Response status success => validateStatus status && success
  | NoResponse => false
  end.

Inductive Outcome : Type := Success | Failure | Neutral.

(** What a turn of the event loop is for the reconnect budget: a
    registration or a transmission that succeeds or fails, or neither. *)
Definition outcome (p : Process) (e : Event) : Outcome :=
  match e with
  | Settle i _ (HttpSettled h) =>
      match inflight p !! i with
      | Some t =>
          match point t with
          | AwaitRegister => if accepted h then Success else Failure
          | AwaitReport _ _ => if resolves h then Success else Failure
          | _ => Neutral
          end
      | None => Neutral
      end
  | _ => Neutral
  end.

(** Runs [es] from [p] as long as no registration or transmission
    succeeds, and counts the failures on the way. *)
Fixpoint failureStreak (p : Process) (es : list Event) : option (nat * Process) :=
  match es with
  | [] => Some (0%nat, p)
  | e :: es' =>
      match outcome p e, step p e with
      | Success, _ => None
      | _, None => None
      | o, Some p' =>
          match failureStreak p' es' with
          | Some (n, q) =>
              Some (match o with Failure => S n | _ => n end, q)
          | None => None
          end
      end
  end.

(** The delays handed to [setTimeout], oldest first. *)
Fixpoint delays (l : list Effect) : list Q :=
  match l with
  | SetTimeout d :: r => d :: delays r
  | _ :: r => delays r
  | [] => []
  end.

(** *** Notions the statements use *)

Definition bounded (p : Process) : Prop :=
  0 <= reconnectAttempts p <= MAX_RECONNECT_ATTEMPTS cfg.

(** The delays of [n] reconnects in a row, the counter starting at [a]. *)
Definition ramp (a : Z) (n : nat) : list Q :=
  List.map (fun k => reconnectDelay (a + Z.of_nat k)) (seq 0 n).

Definition isTrigger (e : Event) : bool :=
  match e with
  | Interval | Timeout _ => true
  | _ => false
  end.

End Agent.

(** ** The program from its first line *)

(** [agent.js] as a whole: the environment is validated, and only then is
    the first [sendReport()] called.  (The lock-file check between the two
    is outside the model.) *)
Definition main {Snapshot : Type} (env : gmap string Js.str) (hostname : Js.str)
    : @Process Snapshot :=
  match loadConfig env hostname with
  | Fatal _ code => exec (process_exit (A := unit) code) initial
  | Ready _ => boot
  end.

(** ** Runs of the agent on a sample host *)

Module Sample.

Definition api_key : Js.str :=
  Js.lit "0123456789abcdef0123456789ABCDEF0123456789abcdef0123456789abcdef".

Definition hostname : Js.str := Js.lit "vps-7".

Definition env : gmap string Js.str :=
  <["SERVER_URL"%string := Js.lit "https://collector.example/"]>
    (<["API_KEY"%string := api_key]>
       (<["NODE_NAME"%string := Js.lit "node-1"]> ∅)).

Definition cfg : Config :=
  {| SERVER_URL := Js.lit "https://collector.example";
     API_KEY := api_key;
     NODE_NAME := Js.lit "node-1";
     REPORT_INTERVAL := Js.Num 1000;
     LATENCY_TEST := true;
     DEBUG := false;
     MAX_RECONNECT_ATTEMPTS := 20;
     RECONNECT_BASE_DELAY := 3000 |}.

(** The same host with LATENCY_TEST=false. *)
Definition cfg_quiet : Config :=
  {| SERVER_URL := Js.lit "https://collector.example";
     API_KEY := api_key;
     NODE_NAME := Js.lit "node-1";
     REPORT_INTERVAL := Js.Num 1000;
     LATENCY_TEST := false;
     DEBUG := false;
     MAX_RECONNECT_ATTEMPTS := 20;
     RECONNECT_BASE_DELAY := 3000 |}.

(** Snapshots carry no data in these runs. *)
Definition Proc : Type := @Process unit.
Definition Ev : Type := @Event unit.

Definition start : Proc := boot.

(** The collector cannot be reached. *)
Definition refused (i : nat) : Ev := Settle i 0 (HttpSettled NoResponse).

(** The collector answers with [status] and a body whose [success] field
    is [ok]. *)
Definition answered (i : nat) (now status : Z) (ok : bool) : Ev :=
  Settle i now (HttpSettled (Response status ok)).

Definition collected (i : nat) (now : Z) : Ev :=
  Settle i now (StatsSettled (Some tt)).

Definition notCollected (i : nat) (now : Z) : Ev :=
  Settle i now (StatsSettled None).

(** The first registration is refused, and so is each retry the reconnect
    timer starts: [k] failures in a row. *)
Definition failures (k : nat) : list Ev :=
  refused 0 :: concat (repeat [Timeout 0; refused 0] (k - 1)).

Definition after (c : Config) (es : list Ev) : Proc :=
  match run c start es with
  | Some q => q
  | None => start
  end.

End Sample.

(** The agent is registered and its report, with a latency of 37 ms, is on
    its way. *)
Definition reporting : Sample.Proc :=
  Sample.after Sample.cfg
    [Sample.answered 0 0 200 true; Sample.collected 0 10; Sample.answered 0 47 200 false].

(** The collector is down: the first registration is refused, and the
    interval timer fires twice while the registration POSTs are pending. *)
Definition overlapping : Sample.Proc :=
  Sample.after Sample.cfg [Sample.refused 0; Interval; Interval].

(** ** What a run has done *)

Section Observations.

Context {Snapshot : Type}.

Variable cfg : Config.

(** The turn settles a registration POST that the collector accepts. *)
Definition isAcceptance (p : @Process Snapshot) (e : @Event Snapshot) : bool :=
  match e with
  | Settle i _ (HttpSettled h) =>
      match inflight p !! i with
      | Some t =>
          match point t with
          | AwaitRegister => accepted h
          | _ => false
          end
      | None => false
      end
  | _ => false
  end.

(** Some registration was accepted in the course of [es], run from [p]. *)
Fixpoint everAccepted (p : @Process Snapshot) (es : list (@Event Snapshot)) : bool :=
  match es with
  | [] => false
  | e :: es' =>
      match step cfg p e with
      | Some p' => isAcceptance p e || everAccepted p' es'
      | None => false
      end
  end.

(** Nothing but registrations has happened: the agent is unregistered,
    every invocation in flight waits for its registration, and every
    network call so far is a registration POST. *)
Definition unregisteredSoFar (p : @Process Snapshot) : Prop :=
  isRegistered p = false
  /\ Forall (fun t => point t = AwaitRegister) (inflight p)
  /\ Forall (fun e => e = PostRegister) (networkCalls p).

(** The reconnect timers that fired in [es]. *)
Definition firedTimers (es : list (@Event Snapshot)) : nat :=
  length (List.filter (fun e => match e with Timeout _ => true | _ => false end) es).

(** The calls of [setInterval] among the effects. *)
Definition intervalsSet (l : list (@Effect Snapshot)) : nat :=
  length (List.filter (fun e => match e with SetInterval _ => true | _ => false end) l).

(** The invocation is past the latency probe without having probed. *)
Definition unprobed (t : @Task Snapshot) : bool :=
  match point t with
  | AwaitLatency _ _ => false
  | AwaitReport _ latency => latency =? 0
  | _ => true
  end.

(** A delay [scheduleReconnect] computes below the limit. *)
Definition isBackoff (d : Q) : Prop :=
  exists k, 0 <= k < MAX_RECONNECT_ATTEMPTS cfg /\ d = reconnectDelay cfg k.

End Observations.


(** The effect is no latency probe, and no report with a measured latency. *)
Definition unprobedEffect {Snapshot : Type} (e : @Effect Snapshot) : bool :=
  match e with
  | GetBase => false
  | PostReport latency _ => latency =? 0
  | _ => true
  end.

(** No probe has been issued: neither in flight nor among the effects. *)
Definition neverProbed {Snapshot : Type} (p : @Process Snapshot) : Prop :=
  Forall (fun t => unprobed t = true) (inflight p)
  /\ Forall (fun e => unprobedEffect e = true) (effects p).

(** How the process can have ended: not at all, on a signal, or with the
    reconnect budget used up. *)
Definition exitedProperly {Snapshot : Type} (cfg : Config) (p : @Process Snapshot) : Prop :=
  exited p = None
  \/ exited p = Some 0
  \/ (exited p = Some 1 /\ reconnectAttempts p = MAX_RECONNECT_ATTEMPTS cfg).


(** The first call of [sendReport] has not returned yet: it is the only
    invocation, no timer is set and the counter is untouched. *)
Definition startingUp {Snapshot : Type} (p : @Process Snapshot) : Prop :=
  intervalOn p = false
  /\ (exists a, inflight p = [mkTask a true])
  /\ timers p = []
  /\ reconnectAttempts p = 0
  /\ intervalsSet (effects p) = 0%nat.

(** The first call has returned and the interval timer is installed. *)
Definition started {Snapshot : Type} (p : @Process Snapshot) : Prop :=
  intervalOn p = true
  /\ Forall (fun t => first t = false) (inflight p)
  /\ intervalsSet (effects p) = 1%nat.


(** ** Notions for the configuration *)

(** A string with no white space at either end. *)
Definition tidy (s : Js.str) : Prop :=
  match s with
  | c :: _ => Js.isWhiteSpace c = false
  | [] => True
  end
  /\ match rev s with
     | c :: _ => Js.isWhiteSpace c = false
     | [] => True
     end.




(** ** Collection: which interface and which disk [getSystemStats] reports *)

Module Stats.





(** [hay.includes(needle)] *)
Fixpoint includes (needle hay : Js.str) : bool :=
  Js.startsWith needle hay
  || match hay with
     | _ :: rest => includes needle rest
     | [] => false
     end.








End Stats.


(** ** More of the sample host *)

Module Host.



(** A first cycle in which everything works, the probe taking 37 ms. *)
Definition firstCycle : list Sample.Ev :=
  [Sample.answered 0 0 200 true; Sample.collected 0 10;
   Sample.answered 0 47 200 true; Sample.answered 0 60 200 true].

(** The agent after a cycle that registered and found no snapshot: it is
    registered, idle, and the interval timer runs. *)
Definition idle : Sample.Proc :=
  Sample.after Sample.cfg [Sample.answered 0 0 200 true; Sample.notCollected 0 5].




End Host.


(** ** Snapshots and reports of a run *)

Section Accounting.

Context {Snapshot : Type}.

(** The snapshot a turn brings in, if it does. *)
Definition collectedBy (e : @Event Snapshot) : list Snapshot :=
  match e with
  | Settle _ _ (StatsSettled (Some s)) => [s]
  | _ => []
  end.

(** The snapshots [getSystemStats] has delivered in [es], oldest first. *)
Definition collectedIn (es : list (@Event Snapshot)) : list Snapshot :=
  concat (List.map collectedBy es).

(** The snapshots of the reports sent, oldest first. *)
Fixpoint reported (l : list (@Effect Snapshot)) : list Snapshot :=
  match l with
  | PostReport _ s :: r => s :: reported r
  | _ :: r => reported r
  | [] => []
  end.

(** The snapshots of the invocations that wait for the latency probe. *)
Fixpoint probing (fl : list (@Task Snapshot)) : list Snapshot :=
  match fl with
  | t :: r =>
      match point t with
      | AwaitLatency s _ => s :: probing r
      | _ => probing r
      end
  | [] => []
  end.

(** The snapshots in the reports and in the pool are among [l]. *)
Definition snapshotsAmong (l : list Snapshot) (p : @Process Snapshot) : Prop :=
  Forall (fun t => match point t with
                   | AwaitLatency s _ | AwaitReport s _ => In s l
                   | _ => True
                   end) (inflight p)
  /\ Forall (fun s => In s l) (reported (effects p)).

End Accounting.


(** ** Proofs *)

Section Lifecycle.

Context {Snapshot : Type}.

Variable cfg : Config.

Local Abbreviation Process := (@Process Snapshot).
Local Abbreviation Event := (@Event Snapshot).
Local Abbreviation Task := (@Task Snapshot).
Local Abbreviation Effect := (@Effect Snapshot).


Ltac unfold_agent :=
  unfold step, exec, resume, sendReport, sendReport_registered,
    sendReport_collected, sendReport_measured, sendReport_posted,
    registerNode_settled, measureLatency_called, scheduleReconnect,
    transmit, collect, finish, shutdown, setInterval, setTimeout, park,
    emit, process_exit, set_isRegistered, set_reconnectAttempts, modify,
    get, bind, ret, unpark, clearTimer in *.

Ltac break_match :=
  match goal with
  | |- context [match ?x with _ => _ end] => destruct x eqn:?
  | H : context [match ?x with _ => _ end] |- _ => destruct x eqn:?
  end.

Ltac crush_step :=
  unfold_agent; cbn in *;
  repeat (break_match; cbn in *; simplify_eq; try discriminate);
  cbn in *; simplify_eq.

(** What [scheduleReconnect] does, in one equation. *)
Lemma scheduleReconnect_spec (p : Process) :
  exec (scheduleReconnect cfg) p =
    if MAX_RECONNECT_ATTEMPTS cfg <=? reconnectAttempts p then
      mkProcess (isRegistered p) (reconnectAttempts p) (inflight p) (timers p)
        (intervalOn p) (effects p) (Some 1)
    else
      mkProcess (isRegistered p) (reconnectAttempts p + 1) (inflight p)
        (timers p ++ [reconnectDelay cfg (reconnectAttempts p)]) (intervalOn p)
        (effects p ++ [SetTimeout (reconnectDelay cfg (reconnectAttempts p))])
        (exited p).
Proof.
  unfold_agent; cbn. destruct (_ <=? _); reflexivity.
Qed.

(** A turn leaves the counter alone, resets it, or adds one below the
    limit. *)
Lemma step_counter (p q : Process) (e : Event) :
  step cfg p e = Some q ->
  reconnectAttempts q = reconnectAttempts p
  \/ reconnectAttempts q = 0
  \/ (reconnectAttempts p < MAX_RECONNECT_ATTEMPTS cfg
      /\ reconnectAttempts q = reconnectAttempts p + 1).
Proof.
  intros Hstep. destruct p as [reg n fl tm io eff ex].
  crush_step; auto; right; right; split; auto; lia.
Qed.

Lemma step_bounded (p q : Process) (e : Event) :
  bounded cfg p -> step cfg p e = Some q -> bounded cfg q.
Proof.
  unfold bounded. intros Hb Hstep.
  destruct (step_counter p q e Hstep) as [-> | [-> | [Hlt ->]]]; lia.
Qed.

Lemma run_bounded (es : list Event) :
  forall p q, bounded cfg p -> run cfg p es = Some q -> bounded cfg q.
Proof.
  induction es as [| e es IH]; cbn; intros p q Hb Hrun.
  - congruence.
  - destruct (step cfg p e) as [p' |] eqn:Hstep; [| discriminate].
    eapply IH; [| exact Hrun]. eapply step_bounded; eauto.
Qed.

Lemma reachable_bounded (p : Process) :
  0 <= MAX_RECONNECT_ATTEMPTS cfg -> reachable cfg p -> bounded cfg p.
Proof.
  intros Hmax [es Hrun]. eapply run_bounded; [| exact Hrun].
  unfold bounded; cbn. lia.
Qed.

(** C10: in every state the agent can reach, over every interleaving of
    timers, completions and signals, 0 <= reconnectAttempts <= 20; a turn
    of the event loop leaves the counter alone, sets it to 0, or adds one
    while it is below 20; and once it is 20, [scheduleReconnect] exits the
    process with status 1 without incrementing. *)
Theorem reconnectAttempts_within_budget (p : Process) :
  MAX_RECONNECT_ATTEMPTS cfg = 20 ->
  reachable cfg p ->
  0 <= reconnectAttempts p <= 20
  /\ (forall e q, step cfg p e = Some q ->
        reconnectAttempts q = reconnectAttempts p
        \/ reconnectAttempts q = 0
        \/ (reconnectAttempts p < 20
            /\ reconnectAttempts q = reconnectAttempts p + 1))
  /\ (reconnectAttempts p = 20 ->
        exited (exec (scheduleReconnect cfg) p) = Some 1
        /\ reconnectAttempts (exec (scheduleReconnect cfg) p) = 20
        /\ timers (exec (scheduleReconnect cfg) p) = timers p).
Proof.
  intros Hmax Hreach.
  assert (Hb : bounded cfg p) by (apply reachable_bounded; [lia | assumption]).
  unfold bounded in Hb. rewrite Hmax in Hb.
  split; [exact Hb |]. split.
  - intros e q Hstep. rewrite <- Hmax. eapply step_counter; eauto.
  - intros H20. rewrite scheduleReconnect_spec, Hmax, H20. cbn. auto.
Qed.

(** *** Streaks of failures *)

Lemma delays_app (l1 l2 : list Effect) :
  delays (l1 ++ l2) = delays l1 ++ delays l2.
Proof.
  induction l1 as [| e l1 IH]; cbn; [reflexivity |].
  destruct e; cbn; rewrite IH; reflexivity.
Qed.

Lemma ramp_S (a : Z) (n : nat) :
  ramp cfg a (S n) = reconnectDelay cfg a :: ramp cfg (a + 1) n.
Proof.
  unfold ramp. cbn [seq List.map]. f_equal.
  - f_equal. lia.
  - rewrite <- seq_shift, List.map_map. apply List.map_ext.
    intros k. f_equal. lia.
Qed.

Lemma step_exited (p : Process) (e : Event) :
  exited p <> None -> step cfg p e = None.
Proof.
  unfold step. destruct (exited p); congruence.
Qed.

Lemma failureStreak_exited (p q : Process) (es : list Event) (n : nat) :
  exited p <> None -> failureStreak cfg p es = Some (n, q) -> n = 0%nat /\ q = p.
Proof.
  intros Hex. destruct es as [| e es]; cbn.
  - intros [= <- <-]. auto.
  - rewrite (step_exited p e Hex). destruct (outcome p e); discriminate.
Qed.

(** A failed registration or transmission runs [scheduleReconnect] once. *)
Lemma step_failure (p q : Process) (e : Event) :
  outcome p e = Failure -> step cfg p e = Some q ->
  if MAX_RECONNECT_ATTEMPTS cfg <=? reconnectAttempts p then
    exited q = Some 1
    /\ reconnectAttempts q = reconnectAttempts p
    /\ delays (effects q) = delays (effects p)
  else
    exited q = None
    /\ reconnectAttempts q = reconnectAttempts p + 1
    /\ delays (effects q)
       = delays (effects p) ++ [reconnectDelay cfg (reconnectAttempts p)].
Proof.
  intros Hout Hstep. destruct p as [reg n fl tm io eff ex].
  unfold outcome, accepted, resolves in *.
  crush_step; try congruence;
    rewrite ?delays_app; cbn; rewrite ?app_nil_r; auto.
Qed.

(** A turn that is neither a failure nor a success spends no budget. *)
Lemma step_neutral (p q : Process) (e : Event) :
  outcome p e = Neutral -> step cfg p e = Some q ->
  exited q <> Some 1
  /\ reconnectAttempts q = reconnectAttempts p
  /\ delays (effects q) = delays (effects p).
Proof.
  intros Hout Hstep. destruct p as [reg n fl tm io eff ex].
  unfold outcome, accepted, resolves in *.
  crush_step; try congruence;
    rewrite ?delays_app; cbn; rewrite ?app_nil_r; auto.
Qed.

(** A successful registration or transmission resets the counter in the
    same turn. *)
Lemma step_success (p q : Process) (e : Event) :
  outcome p e = Success -> step cfg p e = Some q ->
  reconnectAttempts q = 0 /\ exited q = None.
Proof.
  intros Hout Hstep. destruct p as [reg n fl tm io eff ex].
  unfold outcome, accepted, resolves in *.
  crush_step; try congruence; auto.
Qed.

(** A streak of [n] failures that starts with the counter at [a] and
    [m = MAX_RECONNECT_ATTEMPTS - a] reconnects left: the first [m]
    failures schedule the delays of [ramp], the next one exits with
    status 1, and there is no further one. *)
Lemma failureStreak_budget (es : list Event) :
  forall (p q : Process) (n : nat),
    failureStreak cfg p es = Some (n, q) ->
    exited p = None ->
    bounded cfg p ->
    let a := reconnectAttempts p in
    let m := MAX_RECONNECT_ATTEMPTS cfg - a in
    Z.of_nat n <= m + 1
    /\ reconnectAttempts q = a + Z.min (Z.of_nat n) m
    /\ (exited q = Some 1 <-> Z.of_nat n = m + 1)
    /\ delays (effects q)
       = delays (effects p) ++ ramp cfg a (Nat.min n (Z.to_nat m)).
Proof.
  induction es as [| e es IH]; intros p q n Hs Hex Hb; unfold bounded in Hb.
  - cbn in Hs. injection Hs as <- <-. cbn zeta.
    rewrite Nat.min_0_l. cbn. rewrite app_nil_r, Hex.
    repeat split; try lia; try discriminate.
  - cbn [failureStreak] in Hs.
    destruct (outcome p e) eqn:Hout; [discriminate | |];
      destruct (step cfg p e) as [p' |] eqn:Hstep; try discriminate;
      destruct (failureStreak cfg p' es) as [[n' q'] |] eqn:Hs'; try discriminate;
      injection Hs as <- <-.
    + (* a failure *)
      pose proof (step_failure p p' e Hout Hstep) as Hf.
      destruct (MAX_RECONNECT_ATTEMPTS cfg <=? reconnectAttempts p) eqn:Hle.
      * apply Z.leb_le in Hle. destruct Hf as (Hex' & Hn' & Hd').
        destruct (failureStreak_exited p' q' es n') as [-> ->];
          [congruence | assumption |].
        cbn zeta. replace (MAX_RECONNECT_ATTEMPTS cfg - reconnectAttempts p) with 0 by lia.
        rewrite Hn', Hd', Hex'. cbn. rewrite app_nil_r.
        repeat split; try lia; auto.
      * apply Z.leb_gt in Hle. destruct Hf as (Hex' & Hn' & Hd').
        destruct (IH p' q' n' Hs' Hex') as (Hle' & Hcnt & Hexq & Hdel).
        { unfold bounded. lia. }
        cbn zeta in *. rewrite Hn' in *.
        split; [lia |]. split; [lia |]. split.
        { rewrite Hexq. lia. }
        rewrite Hdel, Hd', <- app_assoc. f_equal. cbn [app].
        replace (Z.to_nat (MAX_RECONNECT_ATTEMPTS cfg - reconnectAttempts p))
          with (S (Z.to_nat (MAX_RECONNECT_ATTEMPTS cfg - (reconnectAttempts p + 1))))
          by lia.
        rewrite <- Nat.succ_min_distr, ramp_S. reflexivity.
    + (* neither a failure nor a success *)
      destruct (step_neutral p p' e Hout Hstep) as (Hex' & Hn' & Hd').
      destruct (exited p') as [c |] eqn:Hexp'.
      * destruct (failureStreak_exited p' q' es n') as [-> ->];
          [congruence | assumption |].
        cbn zeta. rewrite Hn', Hd', Hexp'. cbn. rewrite app_nil_r.
        repeat split; try lia; try congruence.
      * destruct (IH p' q' n' Hs' Hexp') as (Hle' & Hcnt & Hexq & Hdel).
        { unfold bounded. lia. }
        cbn zeta in *. rewrite Hn', Hd' in *. auto.
Qed.

Lemma ramp_lookup (n : nat) :
  forall (a : Z) (k : nat),
    (k < n)%nat -> nth_error (ramp cfg a n) k = Some (reconnectDelay cfg (a + Z.of_nat k)).
Proof.
  induction n as [| n IH]; intros a k Hk; [lia |].
  rewrite ramp_S. destruct k as [| k]; cbn [nth_error].
  - do 2 f_equal. lia.
  - rewrite IH by lia. do 2 f_equal. lia.
Qed.

(** C5: with the constants of [CONFIG] (base 3000, 20 attempts), in a run
    of consecutive failures that starts with the counter at 0, the k-th
    delay handed to [setTimeout] (k = 0, 1, ..., below 20) is
    3000 * 1.5^k; and a turn in which a registration or a transmission
    succeeds ends with reconnectAttempts = 0. *)
Theorem reconnect_delays_and_reset :
  MAX_RECONNECT_ATTEMPTS cfg = 20 ->
  RECONNECT_BASE_DELAY cfg = 3000 ->
  (forall (p q : Process) (es : list Event) (n k : nat),
      reconnectAttempts p = 0 ->
      exited p = None ->
      failureStreak cfg p es = Some (n, q) ->
      (k < n)%nat -> (k < 20)%nat ->
      nth_error (delays (effects q)) (length (delays (effects p)) + k)
      = Some (inject_Z 3000 * (3 # 2) ^ Z.of_nat k)%Q)
  /\ (forall (p q : Process) (e : Event),
        step cfg p e = Some q -> outcome p e = Success -> reconnectAttempts q = 0).
Proof.
  intros Hmax Hbase. split.
  - intros p q es n k H0 Hex Hs Hkn Hk20.
    destruct (failureStreak_budget es p q n Hs Hex) as (_ & _ & _ & Hdel).
    { unfold bounded. lia. }
    rewrite Hdel, H0, Hmax. rewrite nth_error_app2 by lia.
    replace (length (delays (effects p)) + k - length (delays (effects p)))%nat
      with k by lia.
    rewrite ramp_lookup by lia.
    unfold reconnectDelay. rewrite Hbase. reflexivity.
  - intros p q e Hstep Hout. apply (step_success p q e Hout Hstep).
Qed.

(** C6 (amended): a run of consecutive failures that starts with the
    counter at 0 has at most 21 failures; after 20 or fewer the process has
    not exited with status 1 and the counter equals their number; the 21st
    exits with status 1; and an exited process takes no further turn, so
    it makes no further network call. *)
Theorem reconnect_budget_exhausted :
  MAX_RECONNECT_ATTEMPTS cfg = 20 ->
  (forall (p q : Process) (es : list Event) (n : nat),
      reconnectAttempts p = 0 ->
      exited p = None ->
      failureStreak cfg p es = Some (n, q) ->
      (n <= 21)%nat
      /\ ((n <= 20)%nat -> exited q <> Some 1 /\ reconnectAttempts q = Z.of_nat n)
      /\ (n = 21%nat -> exited q = Some 1))
  /\ (forall (q : Process) (e : Event), exited q <> None -> step cfg q e = None).
Proof.
  intros Hmax. split.
  - intros p q es n H0 Hex Hs.
    destruct (failureStreak_budget es p q n Hs Hex) as (Hle & Hcnt & Hexq & _).
    { unfold bounded. lia. }
    rewrite H0, Hmax in *. split; [lia |]. split.
    + intros Hn. split; [| lia]. rewrite Hexq. lia.
    + intros ->. apply Hexq. reflexivity.
  - intros q e Hq. apply step_exited, Hq.
Qed.

(** *** Single turns *)

(** A timer starts an invocation whatever is in flight: unregistered, it
    posts the registration and parks; registered, it parks on collection. *)
Lemma step_trigger (p q : Process) (e : Event) :
  isTrigger e = true -> step cfg p e = Some q ->
  isRegistered q = isRegistered p
  /\ reconnectAttempts q = reconnectAttempts p
  /\ exited q = None
  /\ (if isRegistered p then
        effects q = effects p /\ inflight q = inflight p ++ [mkTask AwaitStats false]
      else
        effects q = effects p ++ [PostRegister]
        /\ inflight q = inflight p ++ [mkTask AwaitRegister false]).
Proof.
  intros Htr Hstep. destruct p as [reg n fl tm io eff ex].
  destruct e; try discriminate; crush_step; auto.
Qed.

(** A registration that is not accepted ends the invocation: nothing is
    collected and nothing is sent. *)
Lemma step_registration_refused (p q : Process) (i : nat) (t : Task)
    (now : Z) (h : Http) :
  inflight p !! i = Some t ->
  point t = AwaitRegister ->
  accepted h = false ->
  step cfg p (Settle i now (HttpSettled h)) = Some q ->
  networkCalls q = networkCalls p /\ inflight q = delete i (inflight p).
Proof.
  intros Hi Ht Hacc Hstep. destruct p as [reg n fl tm io eff ex].
  unfold networkCalls, accepted in *.
  crush_step; try congruence; cbn;
    rewrite ?List.filter_app; cbn; rewrite ?app_nil_r; auto.
Qed.

(** An accepted registration registers the agent, resets the counter and
    moves the invocation on to collection. *)
Lemma step_registration_accepted (p q : Process) (i : nat) (t : Task)
    (now : Z) (h : Http) :
  inflight p !! i = Some t ->
  point t = AwaitRegister ->
  accepted h = true ->
  step cfg p (Settle i now (HttpSettled h)) = Some q ->
  isRegistered q = true
  /\ reconnectAttempts q = 0
  /\ effects q = effects p
  /\ inflight q = delete i (inflight p) ++ [mkTask AwaitStats (first t)]
  /\ exited q = None.
Proof.
  intros Hi Ht Hacc Hstep. destruct p as [reg n fl tm io eff ex].
  unfold accepted in *.
  crush_step; try congruence; auto.
Qed.

(** C7: when [getSystemStats] resolves to null, the turn that resumes the
    invocation ends it and changes neither isRegistered nor
    reconnectAttempts; nothing is sent and no reconnect timer is set.  A
    whole cycle of a registered agent, from the interval timer to the null
    snapshot, leaves the process as it was.  A whole cycle that had to
    register first ends registered, with the counter at 0 (so not raised),
    and has sent the registration only. *)
Theorem collection_failure_is_silent :
  (forall (p : Process) (i : nat) (t : Task) (now : Z),
      exited p = None ->
      inflight p !! i = Some t ->
      point t = AwaitStats ->
      exists q, step cfg p (Settle i now (StatsSettled None)) = Some q
        /\ isRegistered q = isRegistered p
        /\ reconnectAttempts q = reconnectAttempts p
        /\ networkCalls q = networkCalls p
        /\ timers q = timers p
        /\ delays (effects q) = delays (effects p)
        /\ inflight q = delete i (inflight p)
        /\ exited q = None)
  /\ (forall (p : Process) (now : Z),
        exited p = None ->
        isRegistered p = true ->
        intervalOn p = true ->
        run cfg p [Interval; Settle (length (inflight p)) now (StatsSettled None)]
        = Some p)
  /\ (forall (p q : Process) (e : Event) (now now' : Z) (h : Http),
        isRegistered p = false ->
        0 <= reconnectAttempts p ->
        isTrigger e = true ->
        run cfg p [e; Settle (length (inflight p)) now (HttpSettled h);
                   Settle (length (inflight p)) now' (StatsSettled None)] = Some q ->
        isRegistered q = true
        /\ reconnectAttempts q = 0
        /\ reconnectAttempts q <= reconnectAttempts p
        /\ networkCalls q = networkCalls p ++ [PostRegister]
        /\ delays (effects q) = delays (effects p)
        /\ inflight q = inflight p).
Proof.
  assert (Hturn : forall (p : Process) (i : nat) (t : Task) (now : Z),
      exited p = None ->
      inflight p !! i = Some t ->
      point t = AwaitStats ->
      exists q, step cfg p (Settle i now (StatsSettled None)) = Some q
        /\ isRegistered q = isRegistered p
        /\ reconnectAttempts q = reconnectAttempts p
        /\ networkCalls q = networkCalls p
        /\ timers q = timers p
        /\ delays (effects q) = delays (effects p)
        /\ inflight q = delete i (inflight p)
        /\ exited q = None).
  { intros p i t now Hex Hi Ht.
    destruct p as [reg n fl tm io eff ex]. unfold networkCalls.
    crush_step; try congruence; eexists; split; try reflexivity; cbn;
      rewrite ?delays_app, ?List.filter_app; cbn; rewrite ?app_nil_r; auto 10. }
  split; [exact Hturn |]. split.
  - intros p now Hex Hreg Hio.
    destruct p as [reg n fl tm io eff ex]. cbn in *. subst.
    unfold run, step. cbn. unfold exec, sendReport, collect, park, get, bind, modify.
    cbn. rewrite list_lookup_middle by reflexivity. cbn.
    unfold unpark. cbn.
    replace (delete (length fl) (fl ++ [mkTask AwaitStats false])) with fl; [reflexivity |].
    rewrite delete_middle, app_nil_r. reflexivity.
  - intros p q e now now' h Hreg Hnonneg Htr Hrun. cbn [run] in Hrun.
    destruct (step cfg p e) as [p1 |] eqn:H1; [| discriminate].
    destruct (step cfg p1 _) as [p2 |] eqn:H2; [| discriminate].
    destruct (step cfg p2 _) as [p3 |] eqn:H3; [| discriminate].
    injection Hrun as <-.
    destruct (step_trigger p p1 e Htr H1) as (_ & _ & _ & Hshape).
    rewrite Hreg in Hshape. destruct Hshape as [Heff1 Hfl1].
    assert (Hlook : inflight p1 !! length (inflight p) = Some (mkTask AwaitRegister false)).
    { rewrite Hfl1. apply list_lookup_middle. reflexivity. }
    assert (Hacc : accepted h = true).
    { destruct (accepted h) eqn:Hacc; [reflexivity |].
      destruct (step_registration_refused p1 p2 _ _ now h Hlook eq_refl Hacc H2)
        as [_ Hfl2].
      rewrite Hfl1, delete_middle, app_nil_r in Hfl2.
      unfold step in H3. rewrite Hfl2 in H3.
      rewrite lookup_ge_None_2 in H3 by lia.
      destruct (exited p2); discriminate. }
    destruct (step_registration_accepted p1 p2 _ _ now h Hlook eq_refl Hacc H2)
      as (Hreg2 & Hn2 & Heff2 & Hfl2 & Hex2).
    rewrite Hfl1, delete_middle, app_nil_r in Hfl2. cbn in Hfl2.
    destruct (Hturn p2 (length (inflight p)) (mkTask AwaitStats false) now' Hex2)
      as (q & Hq & Hreg3 & Hn3 & Hnet3 & _ & Hdel3 & Hfl3 & _).
    { rewrite Hfl2. apply list_lookup_middle. reflexivity. }
    { reflexivity. }
    rewrite Hq in H3. injection H3 as <-.
    rewrite Hreg3, Hn3, Hnet3, Hdel3, Hfl3, Hreg2, Hn2.
    unfold networkCalls. rewrite Heff2, Heff1, Hfl2, delete_middle, app_nil_r.
    rewrite List.filter_app, delays_app. cbn. rewrite app_nil_r.
    repeat split; auto.
Qed.

(** C8: when the report POST fails (axios rejects), the turn sets
    isRegistered to false and runs [scheduleReconnect]: the counter, the
    pending timers and the exit status are the ones [scheduleReconnect]
    gives.  A cycle that starts unregistered posts the registration first,
    and unless that registration is accepted it ends without collecting or
    sending a report. *)
Theorem transmission_failure_forces_registration :
  (forall (p : Process) (i : nat) (t : Task) (now : Z) (h : Http)
          (stats : Snapshot) (latency : Z),
      exited p = None ->
      inflight p !! i = Some t ->
      point t = AwaitReport stats latency ->
      resolves h = false ->
      exists q, step cfg p (Settle i now (HttpSettled h)) = Some q
        /\ isRegistered q = false
        /\ reconnectAttempts q = reconnectAttempts (exec (scheduleReconnect cfg) p)
        /\ timers q = timers (exec (scheduleReconnect cfg) p)
        /\ exited q = exited (exec (scheduleReconnect cfg) p)
        /\ networkCalls q = networkCalls p)
  /\ (forall (r r' : Process) (e : Event),
        isRegistered r = false ->
        isTrigger e = true ->
        step cfg r e = Some r' ->
        effects r' = effects r ++ [PostRegister]
        /\ inflight r' = inflight r ++ [mkTask AwaitRegister false]
        /\ forall (now : Z) (h : Http) (r'' : Process),
             accepted h = false ->
             step cfg r' (Settle (length (inflight r)) now (HttpSettled h)) = Some r'' ->
             networkCalls r'' = networkCalls r' /\ inflight r'' = inflight r).
Proof.
  split.
  - intros p i t now h stats latency Hex Hi Ht Hres.
    assert (Hq : exists q, step cfg p (Settle i now (HttpSettled h)) = Some q).
    { unfold step, resume. rewrite Hex, Hi, Ht. eauto. }
    destruct Hq as [q Hstep]. exists q. split; [exact Hstep |].
    rewrite scheduleReconnect_spec.
    destruct p as [reg n fl tm io eff ex]; unfold networkCalls, resolves in *.
    crush_step; try congruence; cbn;
      rewrite ?List.filter_app; cbn; rewrite ?app_nil_r; auto 10.
  - intros r r' e Hreg Htr Hstep.
    destruct (step_trigger r r' e Htr Hstep) as (_ & _ & _ & Hshape).
    rewrite Hreg in Hshape. destruct Hshape as [Heff Hfl].
    split; [exact Heff |]. split; [exact Hfl |].
    intros now h r'' Hacc Hstep'.
    destruct (step_registration_refused r' r'' (length (inflight r))
                (mkTask AwaitRegister false) now h) as [Hnet Hdel]; auto.
    { rewrite Hfl. apply list_lookup_middle. reflexivity. }
    split; [exact Hnet |].
    rewrite Hdel, Hfl, delete_middle, app_nil_r. reflexivity.
Qed.

(** C2 (amended): the cycle is not serialised.  A timer always starts a new
    invocation next to the ones in flight, and the invocation runs to its
    first await at once; invocations interleave at their awaits only.  A
    turn raises reconnectAttempts by at most one, and the invocation that
    raises it ends in that turn, so one invocation counts one failure at
    most once; overlapping invocations each count their own. *)
Theorem cycles_overlap_without_guard (p q : Process) (e : Event) :
  0 <= reconnectAttempts p ->
  step cfg p e = Some q ->
  (isTrigger e = true ->
     length (inflight q) = S (length (inflight p))
     /\ (isRegistered p = false -> effects q = effects p ++ [PostRegister]))
  /\ reconnectAttempts q <= reconnectAttempts p + 1
  /\ (reconnectAttempts q = reconnectAttempts p + 1 ->
      exists i now r, e = Settle i now r
                      /\ outcome p e = Failure
                      /\ inflight q = delete i (inflight p)).
Proof.
  intros Hnonneg Hstep. split; [| split].
  - intros Htr.
    destruct (step_trigger p q e Htr Hstep) as (_ & _ & _ & Hshape).
    destruct (isRegistered p); destruct Hshape as [Heff ->];
      rewrite length_app; cbn; split; try lia; try discriminate; auto.
  - destruct (step_counter p q e Hstep) as [-> | [-> | [_ ->]]]; lia.
  - intros Hinc. destruct p as [reg n fl tm io eff ex].
    unfold outcome, accepted, resolves in *.
    crush_step; try congruence; try lia; eauto 10.
Qed.

(** C3 (amended): [measureLatency] returns 0 and issues no request when
    the latency test is off; otherwise it issues the GET.  When the GET is
    answered with a 2xx status it returns the elapsed milliseconds; when it
    is answered with any other status, or not at all, it returns 9999. *)
Theorem measureLatency_results :
  (forall (now : Z) (p : Process),
      LATENCY_TEST cfg = false ->
      measureLatency_called cfg now p = (p, Some (Returned 0)))
  /\ (forall (now : Z) (p : Process),
        LATENCY_TEST cfg = true ->
        snd (measureLatency_called cfg now p) = Some Pending
        /\ effects (fst (measureLatency_called cfg now p)) = effects p ++ [GetBase])
  /\ (forall (start now status : Z) (success : bool),
        200 <= status < 300 ->
        measureLatency_settled start now (Response status success) = now - start)
  /\ (forall (start now status : Z) (success : bool),
        ~ 200 <= status < 300 ->
        measureLatency_settled start now (Response status success) = 9999)
  /\ (forall (start now : Z), measureLatency_settled start now NoResponse = 9999).
Proof.
  unfold measureLatency_called, measureLatency_settled, resolves, validateStatus.
  split; [| split; [| split; [| split]]].
  - intros now p ->. reflexivity.
  - intros now p ->. split; reflexivity.
  - intros start now status success Hs.
    replace ((200 <=? status) && (status <? 300)) with true; [reflexivity |].
    symmetry. apply andb_true_iff. split; [apply Z.leb_le | apply Z.ltb_lt]; lia.
  - intros start now status success Hs.
    replace ((200 <=? status) && (status <? 300)) with false; [reflexivity |].
    symmetry. apply andb_false_iff.
    destruct (Z.leb_spec 200 status); [right; apply Z.ltb_ge; lia | left; reflexivity].
  - reflexivity.
Qed.

(** The report POST is checked by its HTTP status only: a 2xx answer
    counts as success whatever its body says. *)
Lemma report_2xx_is_success (p q : Process) (i : nat) (t : Task) (now : Z)
    (status : Z) (success : bool) (stats : Snapshot) (latency : Z) :
  inflight p !! i = Some t ->
  point t = AwaitReport stats latency ->
  validateStatus status = true ->
  step cfg p (Settle i now (HttpSettled (Response status success))) = Some q ->
  outcome p (Settle i now (HttpSettled (Response status success))) = Success
  /\ isRegistered q = isRegistered p
  /\ reconnectAttempts q = 0
  /\ timers q = timers p.
Proof.
  intros Hi Ht Hv Hstep. destruct p as [reg n fl tm io eff ex].
  unfold outcome, resolves in *.
  crush_step; try congruence; auto.
Qed.

(** *** Before the first accepted registration *)

Lemma step_unregisteredSoFar (p q : Process) (e : Event) :
  unregisteredSoFar p ->
  step cfg p e = Some q ->
  isAcceptance p e = false ->
  unregisteredSoFar q.
Proof.
  intros (Hreg & Hfl & Hnet) Hstep Hacc.
  destruct p as [reg n fl tm io eff ex]. cbn in Hreg, Hfl, Hnet. subst reg.
  unfold unregisteredSoFar, networkCalls in *. cbn [effects] in Hnet.
  destruct e as [| j | i now r |]; unfold step in Hstep; cbn in Hstep;
    destruct ex; try discriminate.
  - destruct io; [| discriminate]. injection Hstep as <-. cbn.
    rewrite List.filter_app. cbn.
    repeat split; auto using Forall_app_2, Forall_cons_2, Forall_nil_2.
  - destruct (tm !! j); [| discriminate]. injection Hstep as <-. cbn.
    rewrite List.filter_app. cbn.
    repeat split; auto using Forall_app_2, Forall_cons_2, Forall_nil_2.
  - destruct (fl !! i) as [t |] eqn:Hi; [| discriminate].
    pose proof (Forall_lookup_1 _ _ _ _ Hfl Hi) as Ht. cbn in Ht.
    pose proof (Forall_delete _ fl i Hfl) as Hdel.
    unfold isAcceptance in Hacc. cbn in Hacc. rewrite Hi, Ht in Hacc.
    unfold resume in Hstep. rewrite Ht in Hstep.
    destruct r as [h | s]; [| discriminate]. injection Hstep as <-.
    unfold accepted in Hacc.
    destruct h as [status success |]; unfold_agent; cbn;
      repeat (break_match; cbn in *; simplify_eq; try discriminate);
      cbn; rewrite ?List.filter_app; cbn; rewrite ?app_nil_r; auto.
  - injection Hstep as <-. cbn. auto.
Qed.

Lemma run_unregisteredSoFar (es : list Event) :
  forall p q,
    unregisteredSoFar p ->
    run cfg p es = Some q ->
    everAccepted cfg p es = false ->
    unregisteredSoFar q.
Proof.
  induction es as [| e es IH]; cbn; intros p q Hp Hrun Hev.
  - congruence.
  - destruct (step cfg p e) as [p' |] eqn:Hstep; [| discriminate].
    apply orb_false_iff in Hev as [Hacc Hev].
    apply (IH p' q); [| exact Hrun | exact Hev].
    exact (step_unregisteredSoFar p p' e Hp Hstep Hacc).
Qed.

(** X6: until the collector has accepted a registration the agent sends
    nothing but registration POSTs; so a report, or a latency probe, among
    the network calls of a run means that a registration was accepted
    earlier in it. *)
Theorem no_report_before_registration (es : list Event) (q : Process) :
  run cfg boot es = Some q ->
  (everAccepted cfg boot es = false ->
     isRegistered q = false
     /\ Forall (fun e => e = PostRegister) (networkCalls q))
  /\ (forall e, In e (networkCalls q) -> e <> PostRegister ->
        everAccepted cfg boot es = true).
Proof.
  intros Hrun.
  assert (Hgen : everAccepted cfg boot es = false -> unregisteredSoFar q).
  { intros Hev. eapply run_unregisteredSoFar; eauto.
    unfold unregisteredSoFar, networkCalls. cbn.
    repeat split; auto using Forall_cons_2, Forall_nil_2. }
  split.
  - intros Hev. destruct (Hgen Hev) as (Hreg & _ & Hnet). auto.
  - intros e Hin Hne. destruct (everAccepted cfg boot es) eqn:Hev; [reflexivity |].
    destruct (Hgen eq_refl) as (_ & _ & Hnet).
    rewrite List.Forall_forall in Hnet. elim Hne. apply Hnet, Hin.
Qed.


(** *** The latency test switched off *)

Ltac forall_parts :=
  repeat first
    [ apply Forall_app_2 | apply Forall_cons_2 | apply Forall_nil_2
    | apply Forall_delete | assumption | reflexivity ].

Lemma step_neverProbed (p q : Process) (e : Event) :
  LATENCY_TEST cfg = false ->
  neverProbed p ->
  step cfg p e = Some q ->
  neverProbed q.
Proof.
  intros Hoff (Hfl & Heff) Hstep.
  destruct p as [reg n fl tm io eff ex]. cbn in Hfl, Heff.
  unfold neverProbed.
  destruct e as [| j | i now r |]; unfold step in Hstep; cbn in Hstep;
    destruct ex; try discriminate.
  - destruct io; [| discriminate]. injection Hstep as <-.
    destruct reg; cbn; split; forall_parts.
  - destruct (tm !! j); [| discriminate]. injection Hstep as <-.
    destruct reg; cbn; split; forall_parts.
  - destruct (fl !! i) as [t |] eqn:Hi; [| discriminate].
    pose proof (Forall_lookup_1 _ _ _ _ Hfl Hi) as Ht. cbn in Ht.
    pose proof (Forall_delete _ fl i Hfl) as Hdel.
    unfold unprobed in Ht. unfold resume in Hstep.
    destruct (point t) as [| | stats start | stats latency] eqn:Hpt;
      try discriminate;
      destruct r as [h | s]; try discriminate; injection Hstep as <-;
      unfold_agent; rewrite ?Hoff; cbn;
      repeat (break_match; cbn in *; simplify_eq; try discriminate);
      cbn; split; forall_parts.
  - injection Hstep as <-. cbn. split; assumption.
Qed.

Lemma run_neverProbed (es : list Event) :
  forall p q,
    LATENCY_TEST cfg = false ->
    neverProbed p ->
    run cfg p es = Some q ->
    neverProbed q.
Proof.
  induction es as [| e es IH]; cbn; intros p q Hoff Hp Hrun.
  - congruence.
  - destruct (step cfg p e) as [p' |] eqn:Hstep; [| discriminate].
    apply (IH p' q Hoff); [| exact Hrun].
    exact (step_neverProbed p p' e Hoff Hp Hstep).
Qed.

(** X7: with LATENCY_TEST=false the agent never requests the collector's base
    URL, in no state it can reach, and every report it sends carries the
    latency 0. *)
Theorem latency_test_off_never_probes (p : Process) :
  LATENCY_TEST cfg = false ->
  reachable cfg p ->
  ~ In GetBase (effects p)
  /\ (forall latency stats, In (PostReport latency stats) (effects p) -> latency = 0)
  /\ (forall t, In t (inflight p) ->
        match point t with
        | AwaitLatency _ _ => False
        | AwaitReport _ latency => latency = 0
        | _ => True
        end).
Proof.
  intros Hoff [es Hrun].
  destruct (run_neverProbed es boot p Hoff) as [Hfl Heff]; [| exact Hrun |].
  { unfold neverProbed. cbn. split; forall_parts. }
  rewrite List.Forall_forall in Hfl, Heff. split; [| split].
  - intros Hin. apply Heff in Hin. discriminate.
  - intros latency stats Hin. apply Heff in Hin. cbn in Hin.
    apply Z.eqb_eq, Hin.
  - intros t Hin. apply Hfl in Hin. unfold unprobed in Hin.
    destruct (point t); try exact I; [discriminate | apply Z.eqb_eq, Hin].
Qed.

(** *** How the process ends *)

Lemma step_exitedProperly (p q : Process) (e : Event) :
  bounded cfg p ->
  step cfg p e = Some q ->
  exitedProperly cfg q.
Proof.
  unfold bounded, exitedProperly. intros Hb Hstep.
  destruct p as [reg n fl tm io eff ex].
  crush_step; auto; right; right; split; auto; lia.
Qed.

Lemma run_exitedProperly (es : list Event) :
  forall p q : Process,
    bounded cfg p ->
    exitedProperly cfg p ->
    run cfg p es = Some q ->
    exitedProperly cfg q.
Proof.
  induction es as [| e es IH]; cbn; intros p q Hb Hp Hr.
  - congruence.
  - destruct (step cfg p e) as [p' |] eqn:Hstep; [| discriminate].
    apply (IH p' q); [| | exact Hr].
    + exact (step_bounded p p' e Hb Hstep).
    + exact (step_exitedProperly p p' e Hb Hstep).
Qed.

(** X8: once started, the agent calls [process.exit] in two ways only:
    with status 0 from the SIGINT/SIGTERM handler, or with status 1 from
    [scheduleReconnect] when it finds the counter at 20.  In every state the
    agent can reach, the status is 0 or 1, and it is 1 only with
    reconnectAttempts = 20; after the call the state no longer changes. *)
Theorem exit_status_is_signal_or_budget (p : Process) :
  MAX_RECONNECT_ATTEMPTS cfg = 20 ->
  reachable cfg p ->
  (exited p = None \/ exited p = Some 0
   \/ (exited p = Some 1 /\ reconnectAttempts p = 20))
  /\ (exited p <> None ->
      forall (es : list Event) (q : Process), run cfg p es = Some q -> q = p).
Proof.
  intros Hmax [es Hrun]. split.
  - rewrite <- Hmax. change (exitedProperly cfg p).
    apply (run_exitedProperly es boot p); [| | exact Hrun].
    + unfold bounded. cbn. lia.
    + left. reflexivity.
  - intros Hex es' q Hrun'. destruct es' as [| e es']; cbn in Hrun'.
    + congruence.
    + rewrite (step_exited p e Hex) in Hrun'. discriminate.
Qed.

(** *** The reconnect timers *)

Lemma step_backoff (p q : Process) (e : Event) :
  bounded cfg p ->
  Forall (isBackoff cfg) (timers p) ->
  Forall (isBackoff cfg) (delays (effects p)) ->
  step cfg p e = Some q ->
  Forall (isBackoff cfg) (timers q)
  /\ Forall (isBackoff cfg) (delays (effects q)).
Proof.
  unfold bounded. intros Hb Htm Heff Hstep.
  destruct p as [reg n fl tm io eff ex]. cbn in Hb, Htm, Heff.
  assert (Hn : (MAX_RECONNECT_ATTEMPTS cfg <=? n) = false -> isBackoff cfg (reconnectDelay cfg n)).
  { intros Hlt. exists n. split; [lia | reflexivity]. }
  crush_step; rewrite ?delays_app; cbn; rewrite ?app_nil_r;
    split; forall_parts; auto.
Qed.

Lemma run_backoff (es : list Event) :
  forall p q : Process,
    bounded cfg p ->
    Forall (isBackoff cfg) (timers p) ->
    Forall (isBackoff cfg) (delays (effects p)) ->
    run cfg p es = Some q ->
    Forall (isBackoff cfg) (timers q)
    /\ Forall (isBackoff cfg) (delays (effects q)).
Proof.
  induction es as [| e es IH]; cbn; intros p q Hb Htm Heff Hrun.
  - injection Hrun as <-. auto.
  - destruct (step cfg p e) as [p' |] eqn:Hstep; [| discriminate].
    destruct (step_backoff p p' e Hb Htm Heff Hstep) as [Htm' Heff'].
    apply (IH p' q); auto. exact (step_bounded p p' e Hb Hstep).
Qed.

(** The delays of attempts 0 to 19 lie between 3 seconds and 6650514 ms. *)
Lemma reconnectDelay_range (k : Z) :
  RECONNECT_BASE_DELAY cfg = 3000 ->
  0 <= k < 20 ->
  (inject_Z 3000 <= reconnectDelay cfg k)%Q
  /\ (reconnectDelay cfg k <= inject_Z 6650514)%Q.
Proof.
  intros Hbase Hk. unfold reconnectDelay. rewrite Hbase.
  assert (Hcases : k = 0 \/ k = 1 \/ k = 2 \/ k = 3 \/ k = 4 \/ k = 5 \/ k = 6
                   \/ k = 7 \/ k = 8 \/ k = 9 \/ k = 10 \/ k = 11 \/ k = 12
                   \/ k = 13 \/ k = 14 \/ k = 15 \/ k = 16 \/ k = 17 \/ k = 18
                   \/ k = 19) by lia.
  repeat (destruct Hcases as [-> | Hcases]); try subst k;
    split; apply Qle_bool_iff; vm_compute; reflexivity.
Qed.

(** X12: every delay the agent hands to [setTimeout], pending or fired, is one
    of the twenty delays 3000 * 1.5^k; it is at least 3000 ms and at most
    6650514 ms, far below the 2^31 - 1 ms that a Node timer can hold. *)
Theorem reconnect_delays_in_range (p : Process) (d : Q) :
  MAX_RECONNECT_ATTEMPTS cfg = 20 ->
  RECONNECT_BASE_DELAY cfg = 3000 ->
  reachable cfg p ->
  In d (timers p) \/ In d (delays (effects p)) ->
  (exists k, 0 <= k < 20 /\ d = (inject_Z 3000 * (3 # 2) ^ k)%Q)
  /\ (inject_Z 3000 <= d)%Q
  /\ (d <= inject_Z 6650514)%Q
  /\ (d < inject_Z (2 ^ 31 - 1))%Q.
Proof.
  intros Hmax Hbase [es Hrun] Hin.
  destruct (run_backoff es boot p) as [Htm Heff]; try exact Hrun.
  { unfold bounded. cbn. lia. }
  { cbn. constructor. }
  { cbn. constructor. }
  rewrite List.Forall_forall in Htm, Heff.
  assert (Hd : isBackoff cfg d) by (destruct Hin as [Hin | Hin]; auto).
  destruct Hd as (k & Hk & ->). rewrite Hmax in Hk.
  destruct (reconnectDelay_range k Hbase Hk) as [Hlo Hhi].
  split; [| split; [exact Hlo | split; [exact Hhi |]]].
  - exists k. split; [exact Hk |]. unfold reconnectDelay. rewrite Hbase. reflexivity.
  - eapply Qle_lt_trans; [exact Hhi |]. reflexivity.
Qed.

Lemma step_timers (p q : Process) (e : Event) :
  step cfg p e = Some q ->
  (length (timers q) + (if isTrigger e then match e with Timeout _ => 1 | _ => 0 end else 0)
   + length (delays (effects p))
   = length (delays (effects q)) + length (timers p))%nat.
Proof.
  intros Hstep. destruct p as [reg n fl tm io eff ex].
  destruct e as [| j | i now r |]; cbn [isTrigger].
  - crush_step; rewrite ?delays_app; cbn; rewrite ?app_nil_r; lia.
  - unfold step in Hstep. cbn in Hstep. destruct ex; [discriminate |].
    destruct (tm !! j) eqn:Hj; [| discriminate]. injection Hstep as <-.
    assert (Hlen : length (delete j tm) = (length tm - 1)%nat)
      by (apply length_delete; eauto).
    apply lookup_lt_Some in Hj.
    destruct reg; cbn; rewrite ?delays_app; cbn; rewrite ?app_nil_r; lia.
  - crush_step; rewrite ?delays_app, ?length_app; cbn;
      rewrite ?app_nil_r, ?length_app; cbn; lia.
  - crush_step; lia.
Qed.

(** X11: every reconnect timer fires at most once, and nothing else clears it:
    after any run, the timers still pending are the delays scheduled minus
    the timers that fired. *)
Theorem timers_pending_or_fired (es : list Event) (q : Process) :
  run cfg boot es = Some q ->
  (length (timers q) + firedTimers es = length (delays (effects q)))%nat.
Proof.
  assert (Hgen : forall (es : list Event) (p q : Process),
             run cfg p es = Some q ->
             (length (timers q) + firedTimers es + length (delays (effects p))
              = length (delays (effects q)) + length (timers p))%nat).
  { clear. induction es as [| e es IH]; cbn [run]; intros p q Hrun.
    - injection Hrun as <-. unfold firedTimers. cbn. lia.
    - destruct (step cfg p e) as [p' |] eqn:Hstep; [| discriminate].
      pose proof (IH p' q Hrun) as IH'. pose proof (step_timers p p' e Hstep) as Hs.
      unfold firedTimers in *. cbn [List.filter].
      destruct e; cbn [isTrigger length] in *; lia. }
  intros Hrun. pose proof (Hgen es boot q Hrun) as H. cbn in H. lia.
Qed.


(** *** The interval timer *)

Lemma intervalsSet_app (l1 l2 : list Effect) :
  intervalsSet (l1 ++ l2) = (intervalsSet l1 + intervalsSet l2)%nat.
Proof. unfold intervalsSet. rewrite List.filter_app, length_app. reflexivity. Qed.

Lemma step_startingUp (p q : Process) (e : Event) :
  0 < MAX_RECONNECT_ATTEMPTS cfg ->
  startingUp p ->
  step cfg p e = Some q ->
  startingUp q \/ started q.
Proof.
  intros Hmax (Hio & [a Hfl] & Htm & Hn & Hint) Hstep.
  destruct p as [reg n fl tm io eff ex]. cbn in Hio, Hfl, Htm, Hn, Hint. subst.
  assert (Hlt : (MAX_RECONNECT_ATTEMPTS cfg <=? 0) = false) by lia.
  unfold startingUp, started.
  destruct e as [| j | i now r |]; unfold step in Hstep; cbn in Hstep;
    destruct ex; try discriminate.
  - destruct i as [| i]; cbn in Hstep; [| discriminate].
    unfold resume in Hstep. cbn in Hstep.
    destruct a, r as [h | s]; try discriminate; injection Hstep as <-;
      unfold_agent; cbn; rewrite ?Hlt;
      repeat (break_match; cbn in *; simplify_eq; try discriminate);
      unfold intervalsSet in *; cbn;
      rewrite ?List.filter_app, ?length_app; cbn;
      first [ exfalso; cbn in *; congruence
            | left; split; [reflexivity |]; repeat split; eauto; lia
            | right; split; [reflexivity |]; repeat split;
              auto using Forall_nil_2; lia ].
  - injection Hstep as <-. cbn. left. repeat split; eauto.
Qed.

Lemma step_started (p q : Process) (e : Event) :
  started p ->
  step cfg p e = Some q ->
  started q.
Proof.
  intros (Hio & Hfl & Hint) Hstep.
  destruct p as [reg n fl tm io eff ex]. cbn in Hio, Hfl, Hint. subst.
  unfold started.
  destruct e as [| j | i now r |]; unfold step in Hstep; cbn in Hstep;
    destruct ex; try discriminate.
  - injection Hstep as <-.
    destruct reg; unfold intervalsSet in *; cbn;
      rewrite ?List.filter_app, ?length_app; cbn;
      repeat split; forall_parts; lia.
  - destruct (tm !! j); [| discriminate]. injection Hstep as <-.
    destruct reg; unfold intervalsSet in *; cbn;
      rewrite ?List.filter_app, ?length_app; cbn;
      repeat split; forall_parts; lia.
  - destruct (fl !! i) as [t |] eqn:Hi; [| discriminate].
    pose proof (Forall_lookup_1 _ _ _ _ Hfl Hi) as Ht. cbn in Ht.
    pose proof (Forall_delete _ fl i Hfl) as Hdel.
    unfold resume in Hstep. rewrite Ht in Hstep.
    destruct (point t), r as [h | s]; try discriminate; injection Hstep as <-;
      unfold_agent; cbn;
      repeat (break_match; cbn in *; simplify_eq; try discriminate);
      unfold intervalsSet in *; cbn;
      rewrite ?List.filter_app, ?length_app; cbn;
      repeat split; forall_parts; lia.
  - injection Hstep as <-. cbn. auto.
Qed.

Lemma run_started (es : list Event) :
  forall p q : Process,
    0 < MAX_RECONNECT_ATTEMPTS cfg ->
    startingUp p \/ started p ->
    run cfg p es = Some q ->
    startingUp q \/ started q.
Proof.
  induction es as [| e es IH]; cbn; intros p q Hmax Hp Hrun.
  - injection Hrun as <-. exact Hp.
  - destruct (step cfg p e) as [p' |] eqn:Hstep; [| discriminate].
    apply (IH p' q Hmax); [| exact Hrun].
    destruct Hp as [Hp | Hp].
    + exact (step_startingUp p p' e Hmax Hp Hstep).
    + right. exact (step_started p p' e Hp Hstep).
Qed.

(** X9: [setInterval] is called at most once, when the first call of
    [sendReport] returns.  Until then that call is the only invocation in
    flight and no reconnect timer is pending; from then on the interval
    timer stays installed. *)
Theorem interval_timer_installed_once (p : Process) :
  MAX_RECONNECT_ATTEMPTS cfg = 20 ->
  reachable cfg p ->
  (intervalsSet (effects p) <= 1)%nat
  /\ (intervalOn p = true <-> intervalsSet (effects p) = 1%nat)
  /\ (intervalOn p = false ->
      (exists a, inflight p = [mkTask a true])
      /\ timers p = []
      /\ reconnectAttempts p = 0)
  /\ (intervalOn p = true -> Forall (fun t => first t = false) (inflight p)).
Proof.
  intros Hmax [es Hrun].
  destruct (run_started es boot p) as [Hp | Hp]; try exact Hrun; try lia.
  { left. unfold startingUp. cbn. repeat split; eauto. }
  - destruct Hp as (Hio & Hfl & Htm & Hn & Hint). rewrite Hio, Hint.
    repeat split; auto; try lia; try discriminate.
  - destruct Hp as (Hio & Hfl & Hint). rewrite Hio, Hint.
    repeat split; auto; try lia; try discriminate.
Qed.

(** *** A whole successful cycle *)

Lemma step_settle_last (reg : bool) (n : Z) (fl : list Task) (t : Task)
    (tm : list Q) (io : bool) (eff : list Effect) (now : Z) (r : Settled) :
  step cfg (mkProcess reg n (fl ++ [t]) tm io eff None) (Settle (length fl) now r)
  = match resume cfg t now r with
    | Some m => Some (exec m (mkProcess reg n fl tm io eff None))
    | None => None
    end.
Proof.
  unfold step. cbn. rewrite list_lookup_middle by reflexivity.
  destruct (resume cfg t now r); [| reflexivity].
  unfold unpark. cbn. rewrite delete_middle, app_nil_r. reflexivity.
Qed.

(** X10: a cycle of a registered agent in which everything works: the interval
    timer fires, a snapshot is collected at [t0], the probe (if the latency
    test is on) settles at [t1] and the report POST resolves.  The agent has
    then sent one report, with that snapshot and the latency measured
    between [t0] and [t1] (0 with the test off); it is registered, the
    counter is 0, and nothing else has changed. *)
Theorem successful_cycle (p : Process) (s : Snapshot) (t0 t1 t2 : Z) (h1 h2 : Http) :
  exited p = None ->
  isRegistered p = true ->
  intervalOn p = true ->
  resolves h2 = true ->
  run cfg p
    ([Interval; Settle (length (inflight p)) t0 (StatsSettled (Some s))]
     ++ (if LATENCY_TEST cfg
         then [Settle (length (inflight p)) t1 (HttpSettled h1)] else [])
     ++ [Settle (length (inflight p)) t2 (HttpSettled h2)])
  = Some (mkProcess true 0 (inflight p) (timers p) true
            (effects p
             ++ (if LATENCY_TEST cfg
                 then [GetBase; PostReport (measureLatency_settled t0 t1 h1) s]
                 else [PostReport 0 s]))
            None).
Proof.
  intros Hex Hreg Hio Hres.
  destruct p as [reg n fl tm io eff ex]. cbn in Hex, Hreg, Hio. subst.
  cbn [inflight timers effects].
  assert (H1 : step cfg (mkProcess true n fl tm true eff None) Interval
               = Some (mkProcess true n (fl ++ [mkTask AwaitStats false]) tm true eff None))
    by reflexivity.
  destruct (LATENCY_TEST cfg) eqn:Hlat; cbn [app run]; rewrite H1.
  - assert (H2 : step cfg (mkProcess true n (fl ++ [mkTask AwaitStats false]) tm true eff None)
                   (Settle (length fl) t0 (StatsSettled (Some s)))
                 = Some (mkProcess true n (fl ++ [mkTask (AwaitLatency s t0) false]) tm
                           true (eff ++ [GetBase]) None)).
    { rewrite step_settle_last. unfold resume. cbn [point first].
      unfold exec, sendReport_collected, measureLatency_called. rewrite Hlat.
      reflexivity. }
    assert (H3 : step cfg (mkProcess true n (fl ++ [mkTask (AwaitLatency s t0) false]) tm
                             true (eff ++ [GetBase]) None)
                   (Settle (length fl) t1 (HttpSettled h1))
                 = Some (mkProcess true n
                           (fl ++ [mkTask (AwaitReport s (measureLatency_settled t0 t1 h1)) false])
                           tm true
                           ((eff ++ [GetBase]) ++ [PostReport (measureLatency_settled t0 t1 h1) s])
                           None)).
    { rewrite step_settle_last. reflexivity. }
    assert (H4 : step cfg (mkProcess true n
                             (fl ++ [mkTask (AwaitReport s (measureLatency_settled t0 t1 h1)) false])
                             tm true
                             ((eff ++ [GetBase]) ++ [PostReport (measureLatency_settled t0 t1 h1) s])
                             None)
                   (Settle (length fl) t2 (HttpSettled h2))
                 = Some (mkProcess true 0 fl tm true
                           ((eff ++ [GetBase]) ++ [PostReport (measureLatency_settled t0 t1 h1) s])
                           None)).
    { rewrite step_settle_last. unfold resume. cbn [point first].
      unfold exec, sendReport_posted. rewrite Hres. reflexivity. }
    rewrite H2, H3, H4, <- app_assoc. reflexivity.
  - assert (H2 : step cfg (mkProcess true n (fl ++ [mkTask AwaitStats false]) tm true eff None)
                   (Settle (length fl) t0 (StatsSettled (Some s)))
                 = Some (mkProcess true n (fl ++ [mkTask (AwaitReport s 0) false]) tm
                           true (eff ++ [PostReport 0 s]) None)).
    { rewrite step_settle_last. unfold resume. cbn [point first].
      unfold exec, sendReport_collected, measureLatency_called. rewrite Hlat.
      reflexivity. }
    assert (H4 : step cfg (mkProcess true n (fl ++ [mkTask (AwaitReport s 0) false]) tm
                             true (eff ++ [PostReport 0 s]) None)
                   (Settle (length fl) t2 (HttpSettled h2))
                 = Some (mkProcess true 0 fl tm true (eff ++ [PostReport 0 s]) None)).
    { rewrite step_settle_last. unfold resume. cbn [point first].
      unfold exec, sendReport_posted. rewrite Hres. reflexivity. }
    rewrite H2, H4. reflexivity.
Qed.

(** *** Snapshots collected and reports sent *)

Lemma reported_app (l1 l2 : list Effect) :
  reported (l1 ++ l2) = reported l1 ++ reported l2.
Proof.
  induction l1 as [| e l1 IH]; cbn; [reflexivity |].
  destruct e; cbn; rewrite IH; reflexivity.
Qed.

Lemma probing_app (l1 l2 : list Task) :
  probing (l1 ++ l2) = probing l1 ++ probing l2.
Proof.
  induction l1 as [| t l1 IH]; cbn; [reflexivity |].
  destruct (point t); cbn; rewrite IH; reflexivity.
Qed.

(** Taking an invocation out of the pool takes its snapshot out of the
    probing ones, if it was waiting for the probe. *)
Lemma probing_delete (fl : list Task) :
  forall (i : nat) (t : Task),
    fl !! i = Some t ->
    (length (probing fl)
     = length (probing (delete i fl))
       + match point t with AwaitLatency _ _ => 1 | _ => 0 end)%nat
    /\ (forall s, In s (probing (delete i fl)) -> In s (probing fl)).
Proof.
  induction fl as [| t0 fl IH]; intros i t Hi; [discriminate |].
  destruct i as [| i]; cbn in Hi.
  - injection Hi as ->. cbn. destruct (point t); cbn; split; auto; lia.
  - destruct (IH i t Hi) as [Hlen Hin]. cbn.
    destruct (point t0); cbn; split;
      try exact Hlen; try (f_equal; exact Hlen); try exact Hin.
    intros s0 [-> | H]; [left; reflexivity | right; apply Hin, H].
Qed.

Lemma step_accounting (p q : Process) (e : Event) :
  step cfg p e = Some q ->
  (length (reported (effects q)) + length (probing (inflight q))
   = length (reported (effects p)) + length (probing (inflight p))
     + length (collectedBy e))%nat.
Proof.
  intros Hstep. destruct p as [reg n fl tm io eff ex].
  destruct e as [| j | i now r |]; unfold step in Hstep; cbn in Hstep;
    destruct ex; try discriminate.
  - destruct io; [| discriminate]. injection Hstep as <-.
    destruct reg; cbn; rewrite ?reported_app, ?probing_app, ?length_app; cbn; lia.
  - destruct (tm !! j); [| discriminate]. injection Hstep as <-.
    destruct reg; cbn; rewrite ?reported_app, ?probing_app, ?length_app; cbn; lia.
  - destruct (fl !! i) as [t |] eqn:Hi; [| discriminate].
    destruct (probing_delete fl i t Hi) as [Hlen _].
    unfold resume in Hstep.
    destruct (point t), r as [h | s]; try discriminate; injection Hstep as <-;
      unfold_agent; cbn;
      repeat (break_match; cbn in *; simplify_eq; try discriminate);
      cbn; rewrite ?reported_app, ?probing_app, ?length_app; cbn; lia.
  - injection Hstep as <-. cbn. lia.
Qed.

(** X13: every snapshot collected is reported once: after any run, the reports
    sent and the invocations still waiting for the latency probe are
    together as many as the snapshots collected. *)
Theorem every_snapshot_is_reported_once (es : list Event) (q : Process) :
  run cfg boot es = Some q ->
  (length (reported (effects q)) + length (probing (inflight q))
   = length (collectedIn es))%nat.
Proof.
  assert (Hgen : forall (es : list Event) (p q : Process),
             run cfg p es = Some q ->
             (length (reported (effects q)) + length (probing (inflight q))
              = length (reported (effects p)) + length (probing (inflight p))
                + length (collectedIn es))%nat).
  { clear. induction es as [| e es IH]; cbn [run]; intros p q Hrun.
    - injection Hrun as <-. cbn. lia.
    - destruct (step cfg p e) as [p' |] eqn:Hstep; [| discriminate].
      pose proof (IH p' q Hrun) as IH'.
      pose proof (step_accounting p p' e Hstep) as Hs.
      unfold collectedIn in *. cbn [List.map concat]. rewrite length_app. lia. }
  intros Hrun. pose proof (Hgen es boot q Hrun) as H. cbn in H. lia.
Qed.

Lemma snapshotsAmong_more (l l' : list Snapshot) (p : Process) :
  snapshotsAmong l p -> snapshotsAmong (l ++ l') p.
Proof.
  intros [Hfl Heff]. split.
  - eapply Forall_impl; [exact Hfl |]. intros t. cbn beta.
    destruct (point t); auto; intros Ht; apply in_or_app; left; exact Ht.
  - eapply Forall_impl; [exact Heff |]. intros s Hs. apply in_or_app. left. exact Hs.
Qed.

Lemma step_snapshotsAmong (l : list Snapshot) (p q : Process) (e : Event) :
  snapshotsAmong l p ->
  step cfg p e = Some q ->
  snapshotsAmong (l ++ collectedBy e) q.
Proof.
  intros Hp Hstep.
  destruct (snapshotsAmong_more l (collectedBy e) p Hp) as [Hfl' Heff'].
  destruct Hp as [Hfl Heff].
  destruct p as [reg n fl tm io eff ex].
  cbn [inflight effects] in Hfl, Heff, Hfl', Heff'.
  unfold snapshotsAmong.
  destruct e as [| j | i now r |]; unfold step in Hstep; cbn in Hstep;
    destruct ex; try discriminate.
  - destruct io; [| discriminate]. injection Hstep as <-.
    destruct reg; cbn; rewrite ?reported_app; cbn; rewrite ?app_nil_r;
      split; forall_parts; exact I.
  - destruct (tm !! j); [| discriminate]. injection Hstep as <-.
    destruct reg; cbn; rewrite ?reported_app; cbn; rewrite ?app_nil_r;
      split; forall_parts; exact I.
  - destruct (fl !! i) as [t |] eqn:Hi; [| discriminate].
    pose proof (Forall_lookup_1 _ _ _ _ Hfl Hi) as Ht. cbn beta in Ht.
    pose proof (Forall_lookup_1 _ _ _ _ Hfl' Hi) as Ht'. cbn beta in Ht'.
    pose proof (Forall_delete _ fl i Hfl) as Hdel.
    pose proof (Forall_delete _ fl i Hfl') as Hdel'.
    unfold resume in Hstep.
    destruct (point t) as [| | s0 start | s0 latency], r as [h | [s |]];
      try discriminate; injection Hstep as <-;
      unfold_agent; cbn;
      repeat (break_match; cbn in *; simplify_eq; try discriminate);
      cbn; rewrite ?reported_app; cbn; rewrite ?app_nil_r;
      split;
      repeat first
        [ apply Forall_app_2 | apply Forall_cons_2 | apply Forall_nil_2
        | assumption | reflexivity ];
      try exact I;
      try (apply in_or_app; right; left; reflexivity).
  - injection Hstep as <-. cbn. rewrite app_nil_r. split; assumption.
Qed.

(** X14: a report never carries a snapshot the agent did not collect: the
    snapshot of every report sent in a run was delivered by
    [getSystemStats] earlier in that run. *)
Theorem reports_carry_collected_snapshots (es : list Event) (q : Process)
    (latency : Z) (s : Snapshot) :
  run cfg boot es = Some q ->
  In (PostReport latency s) (effects q) ->
  In s (collectedIn es).
Proof.
  assert (Hgen : forall (es : list Event) (l : list Snapshot) (p q : Process),
             snapshotsAmong l p ->
             run cfg p es = Some q ->
             snapshotsAmong (l ++ collectedIn es) q).
  { clear. induction es as [| e es IH]; cbn [run]; intros l p q Hp Hrun.
    - injection Hrun as <-. unfold collectedIn. cbn. rewrite app_nil_r. exact Hp.
    - destruct (step cfg p e) as [p' |] eqn:Hstep; [| discriminate].
      unfold collectedIn. cbn [List.map concat]. rewrite app_assoc.
      apply (IH (l ++ collectedBy e) p' q); [| exact Hrun].
      exact (step_snapshotsAmong l p p' e Hp Hstep). }
  intros Hrun Hin.
  destruct (Hgen es [] boot q) as [_ Heff]; [| exact Hrun |].
  { split; cbn; forall_parts; exact I. }
  cbn [app] in Heff. rewrite List.Forall_forall in Heff. apply Heff.
  clear - Hin. induction (effects q) as [| e l IH]; [contradiction |].
  destruct Hin as [-> | Hin]; cbn.
  - left. reflexivity.
  - destruct e; cbn; auto.
Qed.


End Lifecycle.

(** ** Start-up *)

Example trim_blank : Js.trim (Js.lit "  node-1 ") = Js.lit "node-1".
Proof. reflexivity. Qed.

Example trim_no_break_space : Js.trim [160%N; 120%N; 8232%N] = [120%N].
Proof. reflexivity. Qed.

Example stripTrailingSlashes_url :
  Js.stripTrailingSlashes (Js.lit "http://a/b//") = Js.lit "http://a/b".
Proof. reflexivity. Qed.

Example parseInt_decimal : Js.parseInt (Js.lit " 2500ms") = Js.Num 2500.
Proof. reflexivity. Qed.

Example parseInt_negative : Js.parseInt (Js.lit "-7.9") = Js.Num (-7).
Proof. reflexivity. Qed.

Example parseInt_hex : Js.parseInt (Js.lit "0x1F4") = Js.Num 500.
Proof. reflexivity. Qed.

Example parseInt_no_digit : Js.parseInt (Js.lit "abc") = Js.NaN.
Proof. reflexivity. Qed.

Example parseInt_empty : Js.parseInt [] = Js.NaN.
Proof. reflexivity. Qed.

Example orElse_empty : Js.orElse (Some []) (Js.lit "1000") = Js.lit "1000".
Proof. reflexivity. Qed.

Example isHex64_mixed_case : Js.isHex64 Sample.api_key = true.
Proof. reflexivity. Qed.

Example isHex64_short : Js.isHex64 (Js.lit "abc123") = false.
Proof. reflexivity. Qed.

Lemma missing_false (env : gmap string Js.str) (key : string) :
  missing env key = false ->
  exists v, env !! key = Some v /\ v <> [] /\ Js.trim v <> [].
Proof.
  unfold missing, Js.str_eqb. destruct (env !! key) as [[| c v] |]; try discriminate.
  intros H. exists (c :: v). split; [reflexivity |]. split; [discriminate |].
  apply bool_decide_eq_false in H. exact H.
Qed.

Lemma missing_true (env : gmap string Js.str) (key : string) :
  env !! key = None \/ (exists v, env !! key = Some v /\ Js.trim v = []) ->
  missing env key = true.
Proof.
  unfold missing, Js.str_eqb. intros [-> | (v & -> & Hv)]; [reflexivity |].
  destruct v; [reflexivity |]. apply bool_decide_eq_true. exact Hv.
Qed.

(** C4 (amended): NODE_NAME is required like SERVER_URL and API_KEY.  When it
    is unset, empty or blank, start-up ends with exit status 1 before any
    network call; when start-up succeeds, the three variables are set and not
    blank, and the node name is the trimmed NODE_NAME, never the host name. *)
Theorem node_name_is_required (env : gmap string Js.str) (hostname : Js.str) :
  ((env !! "NODE_NAME"%string = None
    \/ (exists v, env !! "NODE_NAME"%string = Some v /\ Js.trim v = [])) ->
   (exists e, loadConfig env hostname = Fatal e 1)
   /\ exited (main (Snapshot := unit) env hostname) = Some 1
   /\ networkCalls (main (Snapshot := unit) env hostname) = [])
  /\ (forall c, loadConfig env hostname = Ready c ->
        missing env "SERVER_URL" = false
        /\ missing env "API_KEY" = false
        /\ exists v, env !! "NODE_NAME"%string = Some v
                     /\ Js.trim v <> []
                     /\ NODE_NAME c = Js.trim v).
Proof.
  split.
  - intros Hnn. apply missing_true in Hnn.
    assert (H : exists e, loadConfig env hostname = Fatal e 1).
    { unfold loadConfig, requiredEnv. cbn [List.find].
      destruct (missing env "SERVER_URL"); [eauto |].
      destruct (missing env "API_KEY"); [eauto |].
      rewrite Hnn. eauto. }
    split; [exact H |]. destruct H as [e He]. unfold main. rewrite He.
    split; reflexivity.
  - intros c. unfold loadConfig, requiredEnv. cbn [List.find].
    destruct (missing env "SERVER_URL") eqn:Hs; [discriminate |].
    destruct (missing env "API_KEY") eqn:Ha; [discriminate |].
    destruct (missing env "NODE_NAME") eqn:Hn; [discriminate |].
    destruct (negb _); [discriminate |].
    destruct (_ && _); [discriminate |].
    intros [= <-]. split; [reflexivity |]. split; [reflexivity |].
    destruct (missing_false env "NODE_NAME" Hn) as (v & Hv & Hne & Htrim).
    exists v. split; [exact Hv |]. split; [exact Htrim |].
    cbn [NODE_NAME]. rewrite Hv. destruct v as [| c v]; [congruence |].
    unfold Js.orElse. reflexivity.
Qed.

(** Every configuration the agent starts with has the two constants of
    [CONFIG]: 20 attempts and a base delay of 3000 ms. *)
Lemma loadConfig_constants (env : gmap string Js.str) (hostname : Js.str)
    (c : Config) :
  loadConfig env hostname = Ready c ->
  MAX_RECONNECT_ATTEMPTS c = 20 /\ RECONNECT_BASE_DELAY c = 3000.
Proof.
  unfold loadConfig.
  destruct (List.find _ _); [discriminate |].
  destruct (negb _); [discriminate |].
  destruct (_ && _); [discriminate |].
  intros [= <-]. split; reflexivity.
Qed.

(** Whenever [parseInt] reads a number, the interval is at least 500. *)
Lemma report_interval_floor (env : gmap string Js.str) (hostname : Js.str)
    (c : Config) (z : Z) :
  loadConfig env hostname = Ready c ->
  REPORT_INTERVAL c = Js.Num z ->
  500 <= z.
Proof.
  unfold loadConfig.
  destruct (List.find _ _); [discriminate |].
  destruct (negb _); [discriminate |].
  destruct (_ && _); [discriminate |].
  intros [= <-]. cbn. destruct (Js.parseInt _); cbn; [discriminate |].
  intros [= <-]. lia.
Qed.

(** *** What [trim] leaves *)

Lemma trimStart_head (s : Js.str) :
  match Js.trimStart s with
  | c :: _ => Js.isWhiteSpace c = false
  | [] => True
  end.
Proof.
  induction s as [| c s IH]; cbn; [exact I |].
  destruct (Js.isWhiteSpace c) eqn:Hc; [exact IH | exact Hc].
Qed.

Lemma trimStart_suffix (s : Js.str) :
  exists w, s = w ++ Js.trimStart s.
Proof.
  induction s as [| c s [w IH]]; cbn.
  - exists []. reflexivity.
  - destruct (Js.isWhiteSpace c).
    + exists (c :: w). cbn. f_equal. exact IH.
    + exists []. reflexivity.
Qed.

Lemma trimStart_id (s : Js.str) :
  match s with
  | c :: _ => Js.isWhiteSpace c = false
  | [] => True
  end ->
  Js.trimStart s = s.
Proof.
  destruct s as [| c s]; cbn; [reflexivity |]. intros ->. reflexivity.
Qed.

Lemma tidy_trim_id (s : Js.str) : tidy s -> Js.trim s = s.
Proof.
  intros [Hhead Hlast]. unfold Js.trim, Js.trimEnd.
  rewrite (trimStart_id s Hhead), (trimStart_id (rev s) Hlast).
  apply rev_involutive.
Qed.

Lemma trim_tidy (s : Js.str) : tidy (Js.trim s).
Proof.
  unfold Js.trim, Js.trimEnd, tidy. rewrite rev_involutive.
  set (u := Js.trimStart s).
  pose proof (trimStart_head (rev u)) as Hlast.
  split; [| exact Hlast].
  destruct (trimStart_suffix (rev u)) as [w Hw].
  pose proof (trimStart_head s) as Hu. fold u in Hu.
  assert (Hrev : u = rev (Js.trimStart (rev u)) ++ rev w).
  { rewrite <- rev_app_distr, <- Hw, rev_involutive. reflexivity. }
  destruct (rev (Js.trimStart (rev u))) as [| c r]; [exact I |].
  rewrite Hrev in Hu. exact Hu.
Qed.

Lemma hex_not_whitespace (c : N) :
  Js.isDigit 16 c = true -> Js.isWhiteSpace c = false.
Proof.
  unfold Js.isDigit, Js.digitValue, Js.isWhiteSpace. intros H.
  assert (Hrange : (48 <= c <= 122)%N).
  { destruct (N.leb_spec 48 c), (N.leb_spec c 57), (N.leb_spec 97 c),
      (N.leb_spec c 122), (N.leb_spec 65 c), (N.leb_spec c 90);
      cbn in H; try discriminate; lia. }
  repeat (apply orb_false_intro);
    try (apply N.eqb_neq; lia).
  apply andb_false_iff. left. apply N.leb_gt. lia.
Qed.

Lemma hex_tidy (s : Js.str) : forallb (Js.isDigit 16) s = true -> tidy s.
Proof.
  intros H. rewrite forallb_forall in H. split.
  - destruct s as [| c s]; [exact I |]. apply hex_not_whitespace, H. left. reflexivity.
  - destruct (rev s) as [| c r] eqn:Hr; [exact I |].
    apply hex_not_whitespace, H, in_rev. rewrite Hr. left. reflexivity.
Qed.

(** *** The values of [CONFIG] *)

Lemma loadConfig_Ready (env : gmap string Js.str) (hostname : Js.str) (c : Config) :
  loadConfig env hostname = Ready c ->
  exists url key name,
    env !! "SERVER_URL"%string = Some url
    /\ env !! "API_KEY"%string = Some key
    /\ env !! "NODE_NAME"%string = Some name
    /\ Js.trim url <> [] /\ Js.trim name <> [] /\ name <> []
    /\ Js.isHex64 key = true
    /\ (Js.startsWith (Js.lit "http://") url = true
        \/ Js.startsWith (Js.lit "https://") url = true)
    /\ SERVER_URL c = Js.stripTrailingSlashes url
    /\ API_KEY c = Js.trim key
    /\ NODE_NAME c = Js.trim name.
Proof.
  unfold loadConfig, requiredEnv. cbn [List.find].
  destruct (missing env "SERVER_URL") eqn:Hs; [discriminate |].
  destruct (missing env "API_KEY") eqn:Ha; [discriminate |].
  destruct (missing env "NODE_NAME") eqn:Hn; [discriminate |].
  destruct (missing_false env _ Hs) as (url & Hurl & _ & Hturl).
  destruct (missing_false env _ Ha) as (key & Hkey & _ & _).
  destruct (missing_false env _ Hn) as (name & Hname & Hne & Htname).
  rewrite Hurl, Hkey, Hname. cbn [from_option id].
  destruct (Js.isHex64 key) eqn:Hhex; cbn [negb]; [| discriminate].
  destruct (Js.startsWith (Js.lit "http://") url) eqn:H1;
    destruct (Js.startsWith (Js.lit "https://") url) eqn:H2;
    cbn [negb andb]; try discriminate;
    intros [= <-]; exists url, key, name; cbn;
    (repeat split; auto; destruct name; [congruence | reflexivity]).
Qed.

(** X2: after a successful start-up the configured API key is the value of the
    API_KEY variable, character for character: it has passed the test for
    64 hexadecimal digits, so trimming it changes nothing. *)
Theorem api_key_is_kept_verbatim (env : gmap string Js.str) (hostname : Js.str)
    (c : Config) :
  loadConfig env hostname = Ready c ->
  env !! "API_KEY"%string = Some (API_KEY c)
  /\ length (API_KEY c) = 64%nat
  /\ forallb (Js.isDigit 16) (API_KEY c) = true.
Proof.
  intros H. destruct (loadConfig_Ready env hostname c H)
    as (url & key & name & _ & Hkey & _ & _ & _ & _ & Hhex & _ & _ & Hc & _).
  unfold Js.isHex64 in Hhex. apply andb_true_iff in Hhex as [Hlen Hall].
  rewrite Hc, (tidy_trim_id key (hex_tidy key Hall)).
  split; [exact Hkey |]. split; [| exact Hall].
  apply Nat.eqb_eq, Hlen.
Qed.

(** X3: after a successful start-up the node name is not empty and has no white
    space at its start or at its end; trimming it again changes nothing. *)
Theorem node_name_is_trimmed (env : gmap string Js.str) (hostname : Js.str)
    (c : Config) :
  loadConfig env hostname = Ready c ->
  NODE_NAME c <> []
  /\ tidy (NODE_NAME c)
  /\ Js.trim (NODE_NAME c) = NODE_NAME c.
Proof.
  intros H. destruct (loadConfig_Ready env hostname c H)
    as (url & key & name & _ & _ & _ & _ & Hname & _ & _ & _ & _ & _ & Hc).
  rewrite Hc. split; [exact Hname |]. split; [apply trim_tidy |].
  apply tidy_trim_id, trim_tidy.
Qed.


Lemma dropSlashes_spec (s : Js.str) :
  exists k, s = repeat 47%N k ++ Js.dropSlashes s
            /\ match Js.dropSlashes s with
               | c :: _ => c <> 47%N
               | [] => True
               end.
Proof.
  induction s as [| c s (k & IH & Hhead)]; cbn.
  - exists 0%nat. split; [reflexivity | exact I].
  - destruct (N.eqb_spec c 47) as [-> | Hne].
    + exists (S k). cbn. split; [f_equal; exact IH | exact Hhead].
    + exists 0%nat. split; [reflexivity | exact Hne].
Qed.

Lemma rev_repeat (c : N) (k : nat) : rev (repeat c k) = repeat c k.
Proof.
  induction k as [| k IH]; [reflexivity |].
  cbn [repeat rev]. rewrite IH. symmetry. apply repeat_cons.
Qed.

Lemma stripTrailingSlashes_spec (s : Js.str) :
  exists k, s = Js.stripTrailingSlashes s ++ repeat 47%N k
            /\ match rev (Js.stripTrailingSlashes s) with
               | c :: _ => c <> 47%N
               | [] => True
               end.
Proof.
  unfold Js.stripTrailingSlashes. rewrite rev_involutive.
  destruct (dropSlashes_spec (rev s)) as (k & Hs & Hhead).
  exists k. split; [| exact Hhead].
  apply (f_equal (@rev N)) in Hs.
  rewrite rev_involutive, rev_app_distr, rev_repeat in Hs. exact Hs.
Qed.

Lemma startsWith_app (p1 p2 s : Js.str) :
  Js.startsWith (p1 ++ p2) s = true -> Js.startsWith p1 s = true.
Proof.
  revert s. induction p1 as [| a p1 IH]; intros s H; [reflexivity |].
  destruct s as [| b s]; cbn in *; [discriminate |].
  apply andb_true_iff in H as [Hab H]. rewrite Hab. cbn. apply IH, H.
Qed.

(** A prefix without slashes survives the removal of trailing slashes. *)
Lemma startsWith_before_slashes (p r : Js.str) (k : nat) :
  forallb (fun c => negb (c =? 47)%N) p = true ->
  Js.startsWith p (r ++ repeat 47%N k) = true ->
  Js.startsWith p r = true.
Proof.
  revert r. induction p as [| a p IH]; intros r Hp H; [reflexivity |].
  cbn in Hp. apply andb_true_iff in Hp as [Ha Hp].
  destruct r as [| b r]; cbn in *.
  - destruct k as [| k]; cbn in H; [discriminate |].
    apply andb_true_iff in H as [Hab _].
    rewrite Hab in Ha. discriminate.
  - apply andb_true_iff in H as [Hab H]. rewrite Hab. cbn. apply IH; assumption.
Qed.

(** X4: after a successful start-up the configured URL is the SERVER_URL
    variable without its trailing slashes: the variable is the configured
    URL followed by slashes only, the configured URL does not end in a
    slash, and it still begins with [http:] or [https:]. *)
Theorem server_url_loses_trailing_slashes (env : gmap string Js.str)
    (hostname : Js.str) (c : Config) :
  loadConfig env hostname = Ready c ->
  (exists k, env !! "SERVER_URL"%string = Some (SERVER_URL c ++ repeat 47%N k))
  /\ (forall r, SERVER_URL c <> r ++ [47%N])
  /\ (Js.startsWith (Js.lit "http:") (SERVER_URL c) = true
      \/ Js.startsWith (Js.lit "https:") (SERVER_URL c) = true).
Proof.
  intros H. destruct (loadConfig_Ready env hostname c H)
    as (url & key & name & Hurl & _ & _ & _ & _ & _ & _ & Hscheme & Hc & _).
  destruct (stripTrailingSlashes_spec url) as (k & Hk & Hlast).
  rewrite <- Hc in Hk, Hlast. split; [| split].
  - exists k. rewrite <- Hk. exact Hurl.
  - intros r Hr. rewrite Hr, rev_app_distr in Hlast. cbn in Hlast. congruence.
  - rewrite Hk in Hscheme. destruct Hscheme as [Hs | Hs]; [left | right].
    + apply (startsWith_before_slashes _ _ k); [reflexivity |].
      apply (startsWith_app (Js.lit "http:") (Js.lit "//")). exact Hs.
    + apply (startsWith_before_slashes _ _ k); [reflexivity |].
      apply (startsWith_app (Js.lit "https:") (Js.lit "//")). exact Hs.
Qed.

(** *** The report interval *)








(** *** When start-up succeeds *)

Lemma missing_false_intro (env : gmap string Js.str) (key : string) (v : Js.str) :
  env !! key = Some v -> Js.trim v <> [] -> missing env key = false.
Proof.
  unfold missing, Js.str_eqb. intros -> Hv.
  destruct v as [| c v]; [elim Hv; reflexivity |].
  apply bool_decide_eq_false. exact Hv.
Qed.

(** X1: start-up succeeds exactly when SERVER_URL, API_KEY and NODE_NAME are
    set and not blank, API_KEY is 64 hexadecimal digits and SERVER_URL
    begins with [http://] or [https://].  In every other case the process
    exits with status 1 and has done nothing: no request, no timer, no
    invocation of [sendReport]. *)
Theorem startup_succeeds_exactly_when (env : gmap string Js.str) (hostname : Js.str) :
  ((exists c, loadConfig env hostname = Ready c) <->
   (exists url key name,
       env !! "SERVER_URL"%string = Some url
       /\ env !! "API_KEY"%string = Some key
       /\ env !! "NODE_NAME"%string = Some name
       /\ Js.trim url <> [] /\ Js.trim name <> []
       /\ Js.isHex64 key = true
       /\ (Js.startsWith (Js.lit "http://") url = true
           \/ Js.startsWith (Js.lit "https://") url = true)))
  /\ (forall e code, loadConfig env hostname = Fatal e code ->
        code = 1
        /\ main (Snapshot := unit) env hostname
           = mkProcess false 0 [] [] false [] (Some 1)).
Proof.
  split; [split |].
  - intros [c H]. destruct (loadConfig_Ready env hostname c H)
      as (url & key & name & Hu & Hk & Hn & Htu & Htn & _ & Hhex & Hs & _).
    exists url, key, name. auto 10.
  - intros (url & key & name & Hu & Hk & Hn & Htu & Htn & Hhex & Hs).
    assert (Htk : Js.trim key <> []).
    { unfold Js.isHex64 in Hhex. apply andb_true_iff in Hhex as [Hlen Hall].
      rewrite (tidy_trim_id key (hex_tidy key Hall)).
      apply Nat.eqb_eq in Hlen. intros ->. discriminate. }
    unfold loadConfig, requiredEnv. cbn [List.find].
    rewrite (missing_false_intro env _ url Hu Htu),
      (missing_false_intro env _ key Hk Htk),
      (missing_false_intro env _ name Hn Htn).
    rewrite Hu, Hk. cbn [from_option id]. rewrite Hhex. cbn [negb].
    destruct Hs as [-> | ->]; cbn [negb andb]; rewrite ?andb_false_r; eauto.
  - intros e code H. unfold main. rewrite H.
    assert (Hcode : code = 1).
    { revert H. unfold loadConfig.
      destruct (List.find _ _); [intros [= _ <-]; reflexivity |].
      destruct (negb _); [intros [= _ <-]; reflexivity |].
      destruct (_ && _); [intros [= _ <-]; reflexivity | discriminate]. }
    subst code. split; reflexivity.
Qed.


(** ** Collection *)






(** ** Runs of the agent on the sample host *)

Example env_loads : loadConfig Sample.env Sample.hostname = Ready Sample.cfg.
Proof. vm_compute. reflexivity. Qed.

Example quiet_loads :
  loadConfig (<["LATENCY_TEST"%string := Js.lit "false"]> Sample.env) Sample.hostname
  = Ready Sample.cfg_quiet.
Proof. vm_compute. reflexivity. Qed.

(** *** The reconnect budget on the sample host *)

(** C10 at work: after twenty refused registrations the counter is 20, and
    [scheduleReconnect] would exit. *)
Lemma reconnectAttempts_within_budget_witness :
  reachable Sample.cfg (Sample.after Sample.cfg (Sample.failures 20))
  /\ 0 <= reconnectAttempts (Sample.after Sample.cfg (Sample.failures 20)) <= 20
  /\ exited (exec (scheduleReconnect Sample.cfg)
               (Sample.after Sample.cfg (Sample.failures 20))) = Some 1.
Proof.
  assert (Hreach : reachable Sample.cfg (Sample.after Sample.cfg (Sample.failures 20))).
  { exists (Sample.failures 20). vm_compute. reflexivity. }
  split; [exact Hreach |].
  destruct (reconnectAttempts_within_budget Sample.cfg
              (Sample.after Sample.cfg (Sample.failures 20)) eq_refl Hreach)
    as (Hb & _ & Hexit).
  split; [exact Hb |].
  apply Hexit. vm_compute. reflexivity.
Defined.

(** C5 at work: registration fails three times, then succeeds.  The third
    delay is 3000 * 1.5^2 and the counter is back at 0. *)
Lemma reconnect_delays_and_reset_witness :
  nth_error (delays (effects (Sample.after Sample.cfg (Sample.failures 3))))
    (length (delays (effects Sample.start)) + 2)
  = Some (inject_Z 3000 * (3 # 2) ^ Z.of_nat 2)%Q
  /\ reconnectAttempts
       (Sample.after Sample.cfg
          (Sample.failures 3 ++ [Timeout 0; Sample.answered 0 0 200 true])) = 0.
Proof.
  destruct (reconnect_delays_and_reset (Snapshot := unit) Sample.cfg eq_refl eq_refl)
    as [Hdelay Hreset].
  split.
  - apply (Hdelay Sample.start (Sample.after Sample.cfg (Sample.failures 3))
             (Sample.failures 3) 3%nat 2%nat).
    + reflexivity.
    + reflexivity.
    + vm_compute. reflexivity.
    + lia.
    + lia.
  - apply (Hreset (Sample.after Sample.cfg (Sample.failures 3 ++ [Timeout 0]))
             (Sample.after Sample.cfg
                (Sample.failures 3 ++ [Timeout 0; Sample.answered 0 0 200 true]))
             (Sample.answered 0 0 200 true)).
    + vm_compute. reflexivity.
    + vm_compute. reflexivity.
Defined.

(** The delays of attempts 0 to 19 are dyadic rationals 3000 * 3^k / 2^k with
    a numerator below 2^53: the double arithmetic of the source computes them
    without rounding. *)
Example reconnect_delays_are_exact :
  forallb
    (fun k => Qeq_bool (reconnectDelay Sample.cfg k) (3000 * 3 ^ k # Z.to_pos (2 ^ k))
              && (3000 * 3 ^ k <? 2 ^ 53))
    (List.map Z.of_nat (seq 0 20))
  = true.
Proof. vm_compute. reflexivity. Qed.

(** Three refused registrations: the delays are 3000, 4500 and 6750 ms. *)
Example three_failures_delays :
  List.map Qred (delays (effects (Sample.after Sample.cfg (Sample.failures 3))))
  = [3000 # 1; 4500 # 1; 6750 # 1].
Proof. vm_compute. reflexivity. Qed.

(** C6 as stated fails: after exactly twenty consecutive failures the
    process has not exited; its twentieth retry is scheduled, and when that
    timer fires the agent posts another registration. *)
Lemma twenty_failures_leave_agent_running :
  failureStreak Sample.cfg Sample.start (Sample.failures 20)
  = Some (20%nat, Sample.after Sample.cfg (Sample.failures 20))
  /\ exited (Sample.after Sample.cfg (Sample.failures 20)) = None
  /\ length (timers (Sample.after Sample.cfg (Sample.failures 20))) = 1%nat
  /\ exists q, step Sample.cfg (Sample.after Sample.cfg (Sample.failures 20)) (Timeout 0)
               = Some q
               /\ networkCalls q
                  = networkCalls (Sample.after Sample.cfg (Sample.failures 20))
                    ++ [PostRegister].
Proof.
  split; [vm_compute; reflexivity |].
  split; [vm_compute; reflexivity |].
  split; [vm_compute; reflexivity |].
  eexists. split; vm_compute; reflexivity.
Qed.

(** C6 (amended) at work: the twenty-first consecutive failure exits with
    status 1. *)
Lemma reconnect_budget_exhausted_witness :
  failureStreak Sample.cfg Sample.start (Sample.failures 21)
  = Some (21%nat, Sample.after Sample.cfg (Sample.failures 21))
  /\ exited (Sample.after Sample.cfg (Sample.failures 21)) = Some 1
  /\ step Sample.cfg (Sample.after Sample.cfg (Sample.failures 21)) Interval = None.
Proof.
  assert (Hs : failureStreak Sample.cfg Sample.start (Sample.failures 21)
               = Some (21%nat, Sample.after Sample.cfg (Sample.failures 21))).
  { vm_compute. reflexivity. }
  destruct (reconnect_budget_exhausted (Snapshot := unit) Sample.cfg eq_refl)
    as [Hstreak Hdead].
  destruct (Hstreak Sample.start (Sample.after Sample.cfg (Sample.failures 21))
              (Sample.failures 21) 21%nat eq_refl eq_refl Hs) as (_ & _ & H21).
  split; [exact Hs |]. split; [exact (H21 eq_refl) |].
  apply Hdead. rewrite (H21 eq_refl). discriminate.
Defined.

(** *** Single cycles on the sample host *)

(** C7 at work: the agent has registered and waits for its first snapshot,
    which comes back null; on a later tick of the interval timer the
    snapshot is null again; and a retry that registers and then gets no
    snapshot ends registered with the counter at 0. *)
Lemma collection_failure_is_silent_witness :
  (exists q,
      step Sample.cfg (Sample.after Sample.cfg [Sample.answered 0 0 200 true])
        (Sample.notCollected 0 5) = Some q
      /\ isRegistered q = true
      /\ reconnectAttempts q = 0
      /\ networkCalls q = [PostRegister]
      /\ timers q = [])
  /\ run Sample.cfg
       (Sample.after Sample.cfg [Sample.answered 0 0 200 true; Sample.notCollected 0 5])
       [Interval; Sample.notCollected 0 1005]
     = Some (Sample.after Sample.cfg
               [Sample.answered 0 0 200 true; Sample.notCollected 0 5])
  /\ reconnectAttempts
       (Sample.after Sample.cfg
          [Sample.refused 0; Timeout 0; Sample.answered 0 3000 200 true;
           Sample.notCollected 0 3005])
     <= reconnectAttempts (Sample.after Sample.cfg [Sample.refused 0]).
Proof.
  destruct (collection_failure_is_silent (Snapshot := unit) Sample.cfg)
    as (Hturn & Hcycle & Hregistering).
  split; [| split].
  - destruct (Hturn (Sample.after Sample.cfg [Sample.answered 0 0 200 true])
                0%nat (mkTask AwaitStats true) 5 eq_refl eq_refl eq_refl)
      as (q & Hstep & Hreg & Hn & Hnet & Htm & _).
    exists q. split; [exact Hstep |].
    split; [rewrite Hreg; reflexivity |].
    split; [rewrite Hn; reflexivity |].
    split; [rewrite Hnet; reflexivity | rewrite Htm; reflexivity].
  - apply (Hcycle (Sample.after Sample.cfg
                     [Sample.answered 0 0 200 true; Sample.notCollected 0 5])
             1005); reflexivity.
  - destruct (Hregistering
                (Sample.after Sample.cfg [Sample.refused 0])
                (Sample.after Sample.cfg
                   [Sample.refused 0; Timeout 0; Sample.answered 0 3000 200 true;
                    Sample.notCollected 0 3005])
                (Timeout 0) 3000 3005 (Response 200 true))
      as (_ & _ & Hle & _).
    + reflexivity.
    + vm_compute. discriminate.
    + reflexivity.
    + vm_compute. reflexivity.
    + exact Hle.
Defined.

Example reporting_state :
  isRegistered reporting = true
  /\ inflight reporting = [mkTask (AwaitReport tt 37) true]
  /\ effects reporting = [PostRegister; GetBase; PostReport 37 tt].
Proof. vm_compute. auto. Qed.

(** C8 at work: the report times out; the reconnect timer then starts a
    cycle, which posts a registration, and that one is refused too. *)
Lemma transmission_failure_forces_registration_witness :
  (exists q,
      step Sample.cfg reporting (Sample.refused 0) = Some q
      /\ isRegistered q = false
      /\ reconnectAttempts q = 1
      /\ timers q = [reconnectDelay Sample.cfg 0])
  /\ effects (Sample.after Sample.cfg
                [Sample.answered 0 0 200 true; Sample.collected 0 10;
                 Sample.answered 0 47 200 false; Sample.refused 0; Timeout 0])
     = effects (Sample.after Sample.cfg
                  [Sample.answered 0 0 200 true; Sample.collected 0 10;
                   Sample.answered 0 47 200 false; Sample.refused 0])
       ++ [PostRegister].
Proof.
  destruct (transmission_failure_forces_registration (Snapshot := unit) Sample.cfg)
    as [Hfail Hnext].
  split.
  - destruct (Hfail reporting 0%nat (mkTask (AwaitReport tt 37) true) 0 NoResponse
                tt 37 eq_refl eq_refl eq_refl eq_refl)
      as (q & Hstep & Hreg & Hn & Htm & _).
    exists q. split; [exact Hstep |]. split; [exact Hreg |].
    split; [rewrite Hn; reflexivity | rewrite Htm; reflexivity].
  - apply (Hnext
             (Sample.after Sample.cfg
                [Sample.answered 0 0 200 true; Sample.collected 0 10;
                 Sample.answered 0 47 200 false; Sample.refused 0])
             (Sample.after Sample.cfg
                [Sample.answered 0 0 200 true; Sample.collected 0 10;
                 Sample.answered 0 47 200 false; Sample.refused 0; Timeout 0])
             (Timeout 0)).
    + vm_compute. reflexivity.
    + reflexivity.
    + vm_compute. reflexivity.
Defined.

(** C1: the report is answered 200 with a body that says success is false;
    the agent takes the transmission for a success: it stays registered,
    the counter is 0 and no reconnect is scheduled. *)
Theorem report_refused_in_body_counts_as_sent :
  exists q,
    step Sample.cfg reporting (Sample.answered 0 60 200 false) = Some q
    /\ outcome reporting (Sample.answered 0 60 200 false) = Success
    /\ isRegistered q = true
    /\ reconnectAttempts q = 0
    /\ timers q = []
    /\ delays (effects q) = [].
Proof.
  eexists. split; [vm_compute; reflexivity |]. vm_compute. auto 10.
Qed.

(** The registration on the other hand reads the body: the same answer to
    the registration POST is a failure. *)
Example registration_refused_in_body_fails :
  outcome Sample.start (Sample.answered 0 0 200 false) = Failure
  /\ reconnectAttempts (Sample.after Sample.cfg [Sample.answered 0 0 200 false]) = 1.
Proof. vm_compute. auto. Qed.

(** *** Overlapping cycles *)

(** C2 as stated fails: two invocations are in flight at once, the second
    one has posted its own registration, and when both are refused the
    counter rises by two. *)
Lemma two_cycles_in_flight :
  reachable Sample.cfg overlapping
  /\ inflight overlapping = [mkTask AwaitRegister false; mkTask AwaitRegister false]
  /\ networkCalls overlapping = [PostRegister; PostRegister; PostRegister]
  /\ exists q, run Sample.cfg overlapping [Sample.refused 0; Sample.refused 0] = Some q
               /\ reconnectAttempts q = reconnectAttempts overlapping + 2.
Proof.
  split; [exists [Sample.refused 0; Interval; Interval]; vm_compute; reflexivity |].
  split; [vm_compute; reflexivity |].
  split; [vm_compute; reflexivity |].
  eexists. split; vm_compute; reflexivity.
Qed.

(** C2 (amended) at work: the second tick of the interval timer adds an
    invocation next to the one in flight; when the first of the two
    registrations is refused, that invocation counts the failure and ends. *)
Lemma cycles_overlap_without_guard_witness :
  length (inflight overlapping)
  = S (length (inflight (Sample.after Sample.cfg [Sample.refused 0; Interval])))
  /\ inflight (Sample.after Sample.cfg
                 [Sample.refused 0; Interval; Interval; Sample.refused 0])
     = delete 0%nat (inflight overlapping).
Proof.
  split.
  - destruct (cycles_overlap_without_guard Sample.cfg
                (Sample.after Sample.cfg [Sample.refused 0; Interval])
                overlapping Interval)
      as (Hnew & _ & _).
    + vm_compute. discriminate.
    + vm_compute. reflexivity.
    + apply Hnew. reflexivity.
  - destruct (cycles_overlap_without_guard Sample.cfg overlapping
                (Sample.after Sample.cfg
                   [Sample.refused 0; Interval; Interval; Sample.refused 0])
                (Sample.refused 0))
      as (_ & _ & Hinc).
    + vm_compute. discriminate.
    + vm_compute. reflexivity.
    + destruct Hinc as (i & now & r & He & _ & Hfl); [vm_compute; reflexivity |].
      injection He as <- _ _. exact Hfl.
Defined.

(** *** The latency probe *)

(** C3 as stated fails: the collector answers the probe with 404 after
    37 ms, and [measureLatency] returns 9999; that is the latency the
    report carries. *)
Lemma latency_of_404_is_sentinel :
  measureLatency_settled 10 47 (Response 404 false) = 9999
  /\ measureLatency_settled 10 47 (Response 404 false) <> 47 - 10
  /\ effects (Sample.after Sample.cfg
                [Sample.answered 0 0 200 true; Sample.collected 0 10;
                 Sample.answered 0 47 404 false])
     = [PostRegister; GetBase; PostReport 9999 tt].
Proof.
  split; [reflexivity |]. split; [vm_compute; discriminate | vm_compute; reflexivity].
Qed.

(** C3 (amended) at work, with the probe off and on. *)
Lemma measureLatency_results_witness :
  measureLatency_called Sample.cfg_quiet 10 Sample.start
  = (Sample.start, Some (Returned 0))
  /\ effects (fst (measureLatency_called Sample.cfg 10 Sample.start))
     = effects Sample.start ++ [GetBase]
  /\ measureLatency_settled 10 47 (Response 204 false) = 47 - 10
  /\ measureLatency_settled 10 47 (Response 503 false) = 9999.
Proof.
  destruct (measureLatency_results (Snapshot := unit) Sample.cfg_quiet)
    as (Hoff & _ & _ & _ & _).
  destruct (measureLatency_results (Snapshot := unit) Sample.cfg)
    as (_ & Hon & H2xx & Hother & _).
  split; [apply Hoff; reflexivity |].
  split; [apply Hon; reflexivity |].
  split; [apply H2xx; lia | apply Hother; lia].
Defined.

(** *** Start-up on the sample host *)

(** C4 as stated fails: with SERVER_URL and API_KEY valid and NODE_NAME
    unset, or set to the empty string, start-up exits with status 1. *)
Lemma unset_node_name_is_fatal :
  loadConfig (delete "NODE_NAME"%string Sample.env) Sample.hostname
  = Fatal (MissingVariable "NODE_NAME") 1
  /\ loadConfig (<["NODE_NAME"%string := []]> Sample.env) Sample.hostname
     = Fatal (MissingVariable "NODE_NAME") 1
  /\ exited (main (Snapshot := unit) (delete "NODE_NAME"%string Sample.env)
               Sample.hostname) = Some 1.
Proof. vm_compute. auto. Qed.

(** C4 (amended) at work, with NODE_NAME unset and with the sample
    environment. *)
Lemma node_name_is_required_witness :
  (exists e, loadConfig (delete "NODE_NAME"%string Sample.env) Sample.hostname
             = Fatal e 1)
  /\ exists v, Sample.env !! "NODE_NAME"%string = Some v
               /\ NODE_NAME Sample.cfg = Js.trim v.
Proof.
  split.
  - destruct (node_name_is_required (delete "NODE_NAME"%string Sample.env)
                Sample.hostname) as [Hfatal _].
    destruct Hfatal as (He & _ & _); [left; vm_compute; reflexivity | exact He].
  - destruct (node_name_is_required Sample.env Sample.hostname) as [_ Hready].
    destruct (Hready Sample.cfg env_loads) as (_ & _ & v & Hv & _ & Hname).
    exists v. split; [exact Hv | exact Hname].
Defined.

(** C9: REPORT_INTERVAL=abc.  [parseInt] gives NaN, [Math.max(500, NaN)] is
    NaN, and NaN is not at least 500. *)
Theorem report_interval_not_a_number :
  exists c,
    loadConfig (<["REPORT_INTERVAL"%string := Js.lit "abc"]> Sample.env) Sample.hostname
    = Ready c
    /\ REPORT_INTERVAL c = Js.NaN
    /\ Js.geb (REPORT_INTERVAL c) (Js.Num 500) = false.
Proof.
  eexists. split; [vm_compute; reflexivity |]. split; reflexivity.
Qed.

(** *** More runs on the sample host *)

Example includes_home : Stats.includes (Js.lit "/home") (Js.lit "/var/home/u") = true.
Proof. reflexivity. Qed.

Example includes_not_home : Stats.includes (Js.lit "/home") (Js.lit "/boot") = false.
Proof. reflexivity. Qed.


(** Three refused registrations: only registrations have been sent.  After
    a first cycle that works, the report among the network calls has an
    accepted registration before it. *)
Lemma no_report_before_registration_witness :
  Forall (fun e => e = PostRegister)
    (networkCalls (Sample.after Sample.cfg (Sample.failures 3)))
  /\ everAccepted Sample.cfg Sample.start Host.firstCycle = true.
Proof.
  split.
  - destruct (no_report_before_registration Sample.cfg (Sample.failures 3)
                (Sample.after Sample.cfg (Sample.failures 3)))
      as [Hnone _].
    + vm_compute. reflexivity.
    + apply Hnone. vm_compute. reflexivity.
  - destruct (no_report_before_registration Sample.cfg Host.firstCycle
                (Sample.after Sample.cfg Host.firstCycle))
      as [_ Hsome].
    + vm_compute. reflexivity.
    + apply (Hsome (PostReport 37 tt)).
      * vm_compute. auto.
      * discriminate.
Defined.

(** With the latency test off, the first report carries the latency 0. *)
Lemma latency_test_off_never_probes_witness :
  ~ In GetBase
      (effects (Sample.after Sample.cfg_quiet
                  [Sample.answered 0 0 200 true; Sample.collected 0 10]))
  /\ In (PostReport 0 tt)
       (effects (Sample.after Sample.cfg_quiet
                   [Sample.answered 0 0 200 true; Sample.collected 0 10])).
Proof.
  destruct (latency_test_off_never_probes Sample.cfg_quiet
              (Sample.after Sample.cfg_quiet
                 [Sample.answered 0 0 200 true; Sample.collected 0 10]))
    as (Hnever & _ & _).
  - reflexivity.
  - exists [Sample.answered 0 0 200 true; Sample.collected 0 10].
    vm_compute. reflexivity.
  - split; [exact Hnever |]. vm_compute. auto.
Defined.

(** After the twenty-first refused registration the process has exited
    with status 1 and the counter stands at 20. *)
Lemma exit_status_is_signal_or_budget_witness :
  exited (Sample.after Sample.cfg (Sample.failures 21)) = None
  \/ exited (Sample.after Sample.cfg (Sample.failures 21)) = Some 0
  \/ (exited (Sample.after Sample.cfg (Sample.failures 21)) = Some 1
      /\ reconnectAttempts (Sample.after Sample.cfg (Sample.failures 21)) = 20).
Proof.
  destruct (exit_status_is_signal_or_budget Sample.cfg
              (Sample.after Sample.cfg (Sample.failures 21)))
    as [Hstatus _].
  - reflexivity.
  - exists (Sample.failures 21). vm_compute. reflexivity.
  - exact Hstatus.
Defined.

(** The third delay of three refused registrations is within the range. *)
Lemma reconnect_delays_in_range_witness :
  (inject_Z 3000 <= reconnectDelay Sample.cfg 2)%Q
  /\ (reconnectDelay Sample.cfg 2 <= inject_Z 6650514)%Q.
Proof.
  destruct (reconnect_delays_in_range Sample.cfg
              (Sample.after Sample.cfg (Sample.failures 3))
              (reconnectDelay Sample.cfg 2))
    as (_ & Hlo & Hhi & _).
  - reflexivity.
  - reflexivity.
  - exists (Sample.failures 3). vm_compute. reflexivity.
  - right. vm_compute. auto.
  - split; [exact Hlo | exact Hhi].
Defined.

(** Three refused registrations: three delays scheduled, two timers fired,
    one pending. *)
Lemma timers_pending_or_fired_witness :
  (length (timers (Sample.after Sample.cfg (Sample.failures 3)))
   + firedTimers (Sample.failures 3)
   = length (delays (effects (Sample.after Sample.cfg (Sample.failures 3)))))%nat.
Proof.
  apply (timers_pending_or_fired Sample.cfg (Sample.failures 3)).
  vm_compute. reflexivity.
Defined.

(** While the first registration is pending the interval timer is not
    installed; after two refused registrations it has been installed once. *)
Lemma interval_timer_installed_once_witness :
  ((exists a, inflight Sample.start = [mkTask a true]) /\ timers Sample.start = [])
  /\ intervalsSet (effects (Sample.after Sample.cfg (Sample.failures 2))) = 1%nat.
Proof.
  split.
  - destruct (interval_timer_installed_once Sample.cfg Sample.start)
      as (_ & _ & Hoff & _).
    + reflexivity.
    + exists []. reflexivity.
    + destruct (Hoff eq_refl) as (Ha & Htm & _). split; [exact Ha | exact Htm].
  - destruct (interval_timer_installed_once Sample.cfg
                (Sample.after Sample.cfg (Sample.failures 2)))
      as (_ & Hon & _ & _).
    + reflexivity.
    + exists (Sample.failures 2). vm_compute. reflexivity.
    + apply Hon. vm_compute. reflexivity.
Defined.

(** The idle agent runs a cycle that works, the probe taking 37 ms. *)
Lemma successful_cycle_witness :
  run Sample.cfg Host.idle
    [Interval; Sample.collected 0 1010; Sample.answered 0 1047 204 false;
     Sample.answered 0 1060 200 true]
  = Some (mkProcess true 0 [] [] true
            (effects Host.idle ++ [GetBase; PostReport 37 tt]) None).
Proof.
  exact (successful_cycle Sample.cfg Host.idle tt 1010 1047 1060
           (Response 204 false) (Response 200 true)
           eq_refl eq_refl eq_refl eq_refl).
Defined.

(** The sample environment: key, name and URL as configured. *)
Lemma api_key_is_kept_verbatim_witness :
  Sample.env !! "API_KEY"%string = Some (API_KEY Sample.cfg).
Proof.
  destruct (api_key_is_kept_verbatim Sample.env Sample.hostname Sample.cfg env_loads)
    as [Hkey _].
  exact Hkey.
Defined.

Lemma node_name_is_trimmed_witness :
  NODE_NAME Sample.cfg <> [] /\ Js.trim (NODE_NAME Sample.cfg) = NODE_NAME Sample.cfg.
Proof.
  destruct (node_name_is_trimmed Sample.env Sample.hostname Sample.cfg env_loads)
    as (Hne & _ & Hid).
  split; [exact Hne | exact Hid].
Defined.

Lemma server_url_loses_trailing_slashes_witness :
  (exists k, Sample.env !! "SERVER_URL"%string
             = Some (SERVER_URL Sample.cfg ++ repeat 47%N k))
  /\ (Js.startsWith (Js.lit "http:") (SERVER_URL Sample.cfg) = true
      \/ Js.startsWith (Js.lit "https:") (SERVER_URL Sample.cfg) = true).
Proof.
  destruct (server_url_loses_trailing_slashes Sample.env Sample.hostname Sample.cfg
              env_loads)
    as (Hk & _ & Hscheme).
  split; [exact Hk | exact Hscheme].
Defined.


(** The sample environment starts the agent; without NODE_NAME the process
    exits at once. *)
Lemma startup_succeeds_exactly_when_witness :
  (exists c, loadConfig Sample.env Sample.hostname = Ready c)
  /\ main (Snapshot := unit) (delete "NODE_NAME"%string Sample.env) Sample.hostname
     = mkProcess false 0 [] [] false [] (Some 1).
Proof.
  split.
  - destruct (startup_succeeds_exactly_when Sample.env Sample.hostname)
      as [[_ Hready] _].
    apply Hready.
    exists (Js.lit "https://collector.example/"), Sample.api_key, (Js.lit "node-1").
    repeat split; try (vm_compute; reflexivity); try (vm_compute; discriminate).
    right. reflexivity.
  - destruct (startup_succeeds_exactly_when
                (delete "NODE_NAME"%string Sample.env) Sample.hostname)
      as [_ Hfatal].
    destruct (Hfatal (MissingVariable "NODE_NAME") 1) as [_ Hmain].
    + vm_compute. reflexivity.
    + exact Hmain.
Defined.



(** The first cycle collects one snapshot and sends one report, with that
    snapshot. *)
Lemma every_snapshot_is_reported_once_witness :
  (length (reported (effects (Sample.after Sample.cfg Host.firstCycle)))
   + length (probing (inflight (Sample.after Sample.cfg Host.firstCycle)))
   = length (collectedIn Host.firstCycle))%nat.
Proof.
  apply (every_snapshot_is_reported_once Sample.cfg Host.firstCycle).
  vm_compute. reflexivity.
Defined.

Lemma reports_carry_collected_snapshots_witness :
  In tt (collectedIn Host.firstCycle).
Proof.
  apply (reports_carry_collected_snapshots Sample.cfg Host.firstCycle
           (Sample.after Sample.cfg Host.firstCycle) 37 tt).
  - vm_compute. reflexivity.
  - vm_compute. auto.
Defined.
